(** * vid_to_gif: a shallow embedding of the video-to-GIF converter

    The development follows [vid_to_gif.py].  Python values are modelled
    as the interpreter has them: [float] is IEEE-754 binary64 (Rocq's
    primitive floats), [int] is [Z], [str] is a string of ASCII
    characters, [None] is [None], an exception is a value of [exn]
    threaded through an error monad, and the file system together with
    the lines printed and the processes spawned form an explicit state.

    Outside the model: characters beyond ASCII (Unicode digits and
    spaces), the interpreter's limit on the length of integer literals,
    and the text of the rendered messages (each [print] is recorded as a
    tagged event holding the values it interpolates).

    The environment is taken to work: a child process exits or its
    program is missing (no other failure to start it), standard output
    takes every line (the check mark of line 155 included), a path is
    the file it names (no two paths name one file), and an existing file
    can be removed.  What the program does when one of these fails is
    not described here. *)

From Stdlib Require Import ZArith Floats String Ascii List Bool Lia DecimalString
  DecimalPos.
From stdpp Require Import gmap strings list.

Local Open Scope Z_scope.

(** ** Python built-ins used by the program *)

Module Py.

Definition chars := list ascii.

Definition code (c : ascii) : Z := Z.of_N (N_of_ascii c).

(** [Py_ISSPACE], [Py_ISDIGIT], [Py_TOLOWER] of the C implementation. *)
Definition Py_ISSPACE (c : ascii) : bool :=
  ((9 <=? code c) && (code c <=? 13)) || (code c =? 32).

Definition Py_ISDIGIT (c : ascii) : bool :=
  (48 <=? code c) && (code c <=? 57).

Definition Py_TOLOWER (c : ascii) : ascii :=
  if (65 <=? code c) && (code c <=? 90)
  then ascii_of_N (N_of_ascii c + 32) else c.

(** [str.isspace] on ASCII: the C set and the four separators FS..US. *)
Definition str_isspace (c : ascii) : bool :=
  Py_ISSPACE c || ((28 <=? code c) && (code c <=? 31)).

Fixpoint lstrip (sp : ascii -> bool) (l : chars) : chars :=
  match l with
  | c :: r => if sp c then lstrip sp r else l
  | [] => []
  end.

Definition strip (sp : ascii -> bool) (l : chars) : chars :=
  rev (lstrip sp (rev (lstrip sp l))).

(** [str.lower] and [str.strip] on ASCII strings. *)
Definition lower (s : string) : string :=
  string_of_list_ascii (map Py_TOLOWER (list_ascii_of_string s)).

Definition str_strip (s : string) : string :=
  string_of_list_ascii (strip str_isspace (list_ascii_of_string s)).

(** [str.split(sep)] for a one-character separator. *)
Fixpoint split_on (sep : ascii) (l : chars) : list chars :=
  match l with
  | [] => [[]]
  | c :: r =>
      if Ascii.eqb c sep then [] :: split_on sep r
      else match split_on sep r with
           | p :: ps => (c :: p) :: ps
           | [] => [[c]]
           end
  end.

Definition split (sep : ascii) (s : string) : list string :=
  map string_of_list_ascii (split_on sep (list_ascii_of_string s)).

(** Digit runs and their value. *)
Fixpoint span_digits (l : chars) : chars * chars :=
  match l with
  | c :: r =>
      if Py_ISDIGIT c
      then let '(d, t) := span_digits r in (c :: d, t)
      else ([], l)
  | [] => ([], [])
  end.

Definition digits_value (ds : chars) : Z :=
  fold_left (fun a c => 10 * a + (code c - 48)) ds 0.

Definition parse_sign (l : chars) : bool * chars :=
  match l with
  | c :: r =>
      if Ascii.eqb c "-" then (true, r)
      else if Ascii.eqb c "+" then (false, r)
      else (false, l)
  | [] => (false, [])
  end.

(** Underscores of a numeric literal ([_Py_string_to_number_with_underscores]):
    one is allowed only between two digits; they are dropped. *)
Fixpoint drop_underscores (prev : ascii) (l : chars) : option chars :=
  match l with
  | [] => if Ascii.eqb prev "_" then None else Some []
  | c :: r =>
      if Ascii.eqb c "_" then
        if Py_ISDIGIT prev then drop_underscores c r else None
      else if Ascii.eqb prev "_" && negb (Py_ISDIGIT c) then None
      else option_map (cons c) (drop_underscores c r)
  end.

(** The binary64 value nearest to [(-1)^neg * n * 10^e10], ties to even,
    for [0 <= n]: what a correctly rounded [strtod] returns.  A zero keeps
    its sign, too large a value becomes an infinity. *)
Definition round_decimal (neg : bool) (n e10 : Z) : float :=
  SF2Prim
    (if n =? 0 then S754_zero neg
     else if 0 <=? e10
     then binary_normalize prec emax (cond_Zopp neg (n * 10 ^ e10)) 0 neg
     else let '(m, e, l) := SFdiv_core_binary prec emax n 0 (10 ^ (- e10)) 0 in
          binary_round_aux prec emax neg m e l).

(** The exponent part, which has to reach the end of the literal. *)
Definition parse_exponent (l : chars) : option Z :=
  match l with
  | [] => Some 0
  | c :: r =>
      if Ascii.eqb c "e" || Ascii.eqb c "E" then
        let '(eneg, r1) := parse_sign r in
        match span_digits r1 with
        | ((_ :: _) as ds, []) => Some (cond_Zopp eneg (digits_value ds))
        | _ => None
        end
      else None
  end.

(** [_Py_dg_strtod], required to consume the whole literal:
    [sign] (digits [. [digits]] | . digits) [(e|E) [sign] digits]. *)
Definition dg_strtod (l : chars) : option float :=
  let '(neg, l1) := parse_sign l in
  let '(ip, l2) := span_digits l1 in
  let '(fp, l3) :=
    match l2 with
    | c :: r => if Ascii.eqb c "." then span_digits r else ([], l2)
    | [] => ([], [])
    end in
  match ip ++ fp with
  | [] => None
  | ds =>
      match parse_exponent l3 with
      | Some e => Some (round_decimal neg (digits_value ds) (e - Z.of_nat (length fp)))
      | None => None
      end
  end.

(** [_Py_parse_inf_or_nan], required to consume the whole literal. *)
Definition parse_inf_or_nan (l : chars) : option float :=
  let '(neg, r) := parse_sign l in
  let w := string_of_list_ascii (map Py_TOLOWER r) in
  if String.eqb w "inf" || String.eqb w "infinity"
  then Some (if neg then neg_infinity else infinity)
  else if String.eqb w "nan" then Some nan
  else None.

(** [float(s)] for a [str]: [None] stands for [ValueError]. *)
Definition float (s : string) : option PrimFloat.float :=
  match drop_underscores "000" (strip Py_ISSPACE (list_ascii_of_string s)) with
  | None => None
  | Some l =>
      match dg_strtod l with
      | Some f => Some f
      | None => parse_inf_or_nan l
      end
  end.

(** [int(s)] for a [str], base ten: [None] stands for [ValueError]. *)
Fixpoint scan_int (prev : ascii) (l : chars) (acc : Z) : option (Z * chars) :=
  match l with
  | c :: r =>
      if Py_ISDIGIT c then scan_int c r (10 * acc + (code c - 48))
      else if Ascii.eqb c "_" then
        if Ascii.eqb prev "_" then None else scan_int c r acc
      else if Ascii.eqb prev "_" then None else Some (acc, l)
  | [] => if Ascii.eqb prev "_" then None else Some (acc, [])
  end.

Definition int (s : string) : option Z :=
  let '(neg, l) := parse_sign (lstrip Py_ISSPACE (list_ascii_of_string s)) in
  match l with
  | c :: _ =>
      if Py_ISDIGIT c then
        match scan_int "000" l 0 with
        | Some (n, rest) =>
            match lstrip Py_ISSPACE rest with
            | [] => Some (cond_Zopp neg n)
            | _ :: _ => None
            end
        | None => None
        end
      else None
  | [] => None
  end.

(** [str(n)] for an [int]. *)
Definition str_int (n : Z) : string := NilZero.string_of_int (Z.to_int n).

(** [PurePosixPath(p).stem]: the last component of the path, without its
    last suffix. *)
Definition path_name (p : string) : chars :=
  default []
    (last (filter (fun part : chars => part <> [] /\ part <> ["."%char])
                  (split_on "/" (list_ascii_of_string p)))).

Fixpoint rfind_dot (l : chars) (i : nat) (found : option nat) : option nat :=
  match l with
  | [] => found
  | c :: r => rfind_dot r (S i) (if Ascii.eqb c "." then Some i else found)
  end.

Definition stem (p : string) : string :=
  let name := path_name p in
  string_of_list_ascii
    (match rfind_dot name 0 None with
     | Some i => if (0 <? i)%nat && (i <? length name - 1)%nat then take i name else name
     | None => name
     end).

End Py.

(** ** Exceptions, the observable world and the monad of the program *)

(** The [ValueError]s of the conversions the program makes. *)
Inductive value_error :=
  | CouldNotConvert (s : string)          (* raised by [float(s)] *)
  | InvalidTimestampFormat (timestamp : string)
  | IntegerFromNaN.                       (* raised by [int(x)] for a NaN *)

Inductive exn :=
  | ValueError (e : value_error)
  | CalledProcessError (cmd : list string)
  | FileNotFoundError
  | SystemExit (code : Z).

Inductive result (A : Type) :=
  | Ok (a : A)
  | Raise (e : exn).
Arguments Ok {A} a.
Arguments Raise {A} e.

(** One constructor per [print] of the program, with the values the
    message interpolates. *)
Inductive message :=
  | MsgInputNotFound (input_file : string)
  | MsgEndBeforeStart
  | MsgGeneratingPalette
  | MsgPaletteError (e : exn)
  | MsgConverting
  | MsgCreated (output_file : string)
  | MsgGifError (e : exn)
  | MsgFfmpegMissing
  | MsgInstallHint
  | MsgVideoDuration (duration : float)
  | MsgNoDuration
  | MsgPresetWidth (token : string) (width : Z)
  | MsgCustomWidth (width : Z)
  | MsgInvalidWidth (token : string)
  | MsgDefaultWidth (width : Z)
  | MsgError (e : value_error)
  | MsgTimestampHint.

Inductive event :=
  | Spawn (cmd : list string)
  | Printed (m : message).

(** The paths that exist, and what the run did so far (oldest first). *)
Record world := World { files : gset string; events : list event }.

(** How a child process ends: it exits (with status zero or not, having
    written [stdout]), or its program cannot be found. *)
Inductive proc_result :=
  | Exited (zero : bool) (stdout : string)
  | NotFound.

Definition M (A : Type) : Type := world -> result A * world.

#[export] Instance M_ret : MRet M := fun A a w => (Ok a, w).

#[export] Instance M_bind : MBind M := fun A B f m w =>
  match m w with
  | (Ok a, w') => f a w'
  | (Raise e, w') => (Raise e, w')
  end.

Definition raise {A} (e : exn) : M A := fun w => (Raise e, w).

(** [try: body  except ...: handler]: [handler e = None] when no clause
    matches [e], which then propagates. *)
Definition try_except {A} (body : M A) (handler : exn -> option (M A)) : M A :=
  fun w =>
    match body w with
    | (Ok a, w') => (Ok a, w')
    | (Raise e, w') =>
        match handler e with
        | Some h => h w'
        | None => (Raise e, w')
        end
    end.

Definition lift {A} (r : result A) : M A := fun w => (r, w).

Definition print (m : message) : M unit :=
  fun w => (Ok tt, World (files w) (events w ++ [Printed m])).

Definition os_path_exists (p : string) : M bool :=
  fun w => (Ok (bool_decide (p ∈ files w)), w).

Definition os_remove (p : string) : M unit :=
  fun w =>
    if bool_decide (p ∈ files w)
    then (Ok tt, World (files w ∖ {[p]}) (events w))
    else (Raise FileNotFoundError, w).

(** [os.path.getsize]: only whether it raises is modelled. *)
Definition os_path_getsize (p : string) : M unit :=
  fun w => if bool_decide (p ∈ files w) then (Ok tt, w) else (Raise FileNotFoundError, w).

Definition sys_exit {A} (code : Z) : M A := raise (SystemExit code).

(** Truth value of an optional [str] and of a [float]. *)
Definition truthy (o : option string) : bool :=
  match o with
  | Some s => negb (String.eqb s "")
  | None => false
  end.

Definition truthy_float (x : float) : bool := negb (PrimFloat.eqb x 0%float).

(** ** The program *)

(** [float(s)], raising [ValueError] where the built-in does. *)
Definition float_or_raise (s : string) : result float :=
  match Py.float s with
  | Some x => Ok x
  | None => Raise (ValueError (CouldNotConvert s))
  end.

(** The body of [timestamp_to_seconds] below its test for [None]: what
    the function does on a [str]. *)
Definition timestamp_to_seconds_str (timestamp : string) : result float :=
  match Py.float timestamp with
  | Some x => Ok x
  | None =>
      match Py.split ":" timestamp with
      | [h; m; s] =>
          match float_or_raise h with
          | Raise e => Raise e
          | Ok hours =>
          match float_or_raise m with
          | Raise e => Raise e
          | Ok minutes =>
          match float_or_raise s with
          | Raise e => Raise e
          | Ok seconds => Ok (hours * 3600 + minutes * 60 + seconds)%float
          end end end
      | [m; s] =>
          match float_or_raise m with
          | Raise e => Raise e
          | Ok minutes =>
          match float_or_raise s with
          | Raise e => Raise e
          | Ok seconds => Ok (minutes * 60 + seconds)%float
          end end
      | [s] => float_or_raise s
      | _ => Raise (ValueError (InvalidTimestampFormat timestamp))
      end
  end.

Definition timestamp_to_seconds (timestamp : option string) : result (option float) :=
  match timestamp with
  | None => Ok None
  | Some t =>
      match timestamp_to_seconds_str t with
      | Ok x => Ok (Some x)
      | Raise e => Raise e
      end
  end.

Definition RECOMMENDED_WIDTHS : gmap string Z :=
  list_to_map
    [("tiny", 240); ("small", 320); ("medium", 480);
     ("large", 640); ("xlarge", 800); ("hd", 1280)]%string.

(** The parsed command line. *)
Record Namespace := Args {
  input : string;
  output : option string;
  width : option string;
  start : option string;
  end_ : option string;
  fps : Z;
  list_info : bool
}.

(** Lines 108-118: the scale and fps filters shared by both passes. *)
Definition filters (width : option Z) (fps : Z) : list string :=
  [match width with
   | Some w => if Z.eqb w 0 then "scale=-1:-1:flags=lanczos"
               else "scale=" +:+ Py.str_int w +:+ ":-1:flags=lanczos"
   | None => "scale=-1:-1:flags=lanczos"
   end;
   "fps=" +:+ Py.str_int fps]%string.

Definition palette_filters (width : option Z) (fps : Z) : string :=
  String.concat "," (filters width fps) +:+ ",palettegen".

Definition gif_filters (width : option Z) (fps : Z) : string :=
  String.concat "," (filters width fps) +:+ "[x];[x][1:v]paletteuse".

(** Lines 123-127 and 139-143: the two commands, both extending [cmd]. *)
Definition palette_cmd (cmd : list string) (width : option Z) (fps : Z) : list string :=
  cmd ++ ["-vf"; palette_filters width fps; "-y"; "palette.png"]%string.

Definition gif_cmd (cmd : list string) (width : option Z) (fps : Z)
    (output_file : string) : list string :=
  cmd ++ ["-i"; "palette.png"; "-lavfi"; gif_filters width fps;
          "-y"; output_file]%string.

(** Lines 83-85: the output name when none is given. *)
Definition output_name (input_file : string) (output_file : option string) : string :=
  match output_file with
  | None => Py.stem input_file +:+ ".gif"
  | Some o => o
  end.

Section Program.

(** [str(x)] for a float, and the behaviour of the child processes: the
    result of running a command in a file system, and the file system it
    leaves. *)
Context (str_float : float -> string).
Context (child : list string -> gset string -> proc_result * gset string).

(** [subprocess.run(cmd, check=True, capture_output=True)], returning the
    captured standard output. *)
Definition subprocess_run (cmd : list string) : M string :=
  fun w =>
    let ev := events w ++ [Spawn cmd] in
    match child cmd (files w) with
    | (Exited true out, fs) => (Ok out, World fs ev)
    | (Exited false _, fs) => (Raise (CalledProcessError cmd), World fs ev)
    | (NotFound, _) => (Raise FileNotFoundError, World (files w) ev)
    end.

Definition check_ffmpeg : M bool :=
  try_except
    (subprocess_run ["ffmpeg"; "-version"]%string;; mret true)
    (fun e => match e with
              | CalledProcessError _ | FileNotFoundError => Some (mret false)
              | _ => None
              end).

Definition get_video_duration (input_file : string) : M (option float) :=
  try_except
    (let cmd := ["ffprobe"; "-v"; "error";
                 "-show_entries"; "format=duration";
                 "-of"; "default=noprint_wrappers=1:nokey=1";
                 input_file]%string in
     out ← subprocess_run cmd;
     x ← lift (float_or_raise (Py.str_strip out));
     mret (Some x))
    (fun e => match e with
              | CalledProcessError _ | ValueError _ => Some (mret None)
              | _ => None
              end).

(** Lines 87-106: the command both passes extend, or [None] when the
    function has printed the time-range error and returns [False]. *)
Definition build_cmd (input_file : string) (start end_ : option string)
  : M (option (list string)) :=
  let cmd := ["ffmpeg"; "-i"; input_file]%string in
  cmd ← match start with
        | Some s =>
            start_seconds ← lift (timestamp_to_seconds_str s);
            mret (cmd ++ ["-ss"; str_float start_seconds]%string)
        | None => mret cmd
        end;
  match end_ with
  | Some e =>
      end_seconds ← lift (timestamp_to_seconds_str e);
      match start with
      | Some s =>
          start_seconds ← lift (timestamp_to_seconds_str s);
          let duration := (end_seconds - start_seconds)%float in
          if (duration <=? 0)%float
          then print MsgEndBeforeStart;; mret None
          else mret (Some (cmd ++ ["-t"; str_float duration]%string))
      | None => mret (Some (cmd ++ ["-t"; str_float end_seconds]%string))
      end
  | None => mret (Some cmd)
  end.

Definition remove_palette : M unit :=
  found ← os_path_exists "palette.png";
  if found : bool then os_remove "palette.png" else mret tt.

(** Lines 120-163: the palette pass, then the final pass with its
    clean-up on both exits. *)
Definition run_passes (cmd : list string) (width : option Z) (fps : Z)
    (output_file : string) : M bool :=
  print MsgGeneratingPalette;;
  generated ←
    try_except (subprocess_run (palette_cmd cmd width fps);; mret true)
      (fun e => match e with
                | CalledProcessError _ => Some (print (MsgPaletteError e);; mret false)
                | _ => None
                end);
  if negb (generated : bool) then mret false
  else
    print MsgConverting;;
    try_except
      (subprocess_run (gif_cmd cmd width fps output_file);;
       remove_palette;;
       os_path_getsize output_file;;
       print (MsgCreated output_file);;
       mret true)
      (fun e => match e with
                | CalledProcessError _ =>
                    Some (print (MsgGifError e);; remove_palette;; mret false)
                | _ => None
                end).

Definition video_to_gif (input_file : string) (output_file : option string)
    (width : option Z) (start end_ : option string) (fps : Z) : M bool :=
  found ← os_path_exists input_file;
  if negb (found : bool) then print (MsgInputNotFound input_file);; mret false
  else
    let output_file := output_name input_file output_file in
    built ← build_cmd input_file start end_;
    match built : option (list string) with
    | None => mret false
    | Some cmd => run_passes cmd width fps output_file
    end.

(** Lines 239-255 of [main]: the width argument. *)
Definition process_width (token : option string) : M Z :=
  match token with
  | Some t =>
      if truthy token then
        match RECOMMENDED_WIDTHS !! Py.lower t with
        | Some w => print (MsgPresetWidth t w);; mret w
        | None =>
            match Py.int t with
            | Some w => print (MsgCustomWidth w);; mret w
            | None => print (MsgInvalidWidth t);; sys_exit 1
            end
        end
      else
        let w := RECOMMENDED_WIDTHS !!! "medium"%string in
        print (MsgDefaultWidth w);; mret w
  | None =>
      let w := RECOMMENDED_WIDTHS !!! "medium"%string in
      print (MsgDefaultWidth w);; mret w
  end.

(** Lines 257-266 of [main]: the timestamps are parsed once for their
    errors. *)
Definition validate_timestamps (start end_ : option string) : M unit :=
  try_except
    ((if truthy start then lift (timestamp_to_seconds start);; mret tt else mret tt);;
     (if truthy end_ then lift (timestamp_to_seconds end_);; mret tt else mret tt))
    (fun e => match e with
              | ValueError v => Some (print (MsgError v);; print MsgTimestampHint;; sys_exit 1)
              | _ => None
              end).

(** [main], from the parsed arguments on; it ends by raising
    [SystemExit].  Lines 232-234: [divmod] of an infinite or NaN duration
    by 60 is NaN, and [int] of a NaN raises [ValueError]; of a finite
    duration the line is printed. *)
Definition main (args : Namespace) : M unit :=
  available ← check_ffmpeg;
  (if negb (available : bool)
   then print MsgFfmpegMissing;; print MsgInstallHint;; sys_exit 1
   else mret tt);;
  (if list_info args then
     duration ← get_video_duration (input args);
     match duration : option float with
     | Some d =>
         if truthy_float d then
           if is_finite d then print (MsgVideoDuration d)
           else raise (ValueError IntegerFromNaN)
         else print MsgNoDuration
     | None => print MsgNoDuration
     end;;
     sys_exit 0
   else mret tt);;
  w ← process_width (width args);
  validate_timestamps (start args) (end_ args);;
  success ←
    video_to_gif (input args) (output args) (Some w)
                 (start args) (end_ args) (fps args);
  sys_exit (if success : bool then 0 else 1).

End Program.

(** ** Vocabulary of the specification *)

Abbreviation colon := ":"%char.

(** The commands a run started, in order. *)
Definition spawned (evs : list event) : list (list string) :=
  omap (fun e => match e with Spawn c => Some c | Printed _ => None end) evs.

(** The messages that report a rejected request: a missing input, an
    unknown width, a bad timestamp, an empty time window. *)
Definition validation_message (m : message) : bool :=
  match m with
  | MsgInputNotFound _ | MsgInvalidWidth _ | MsgError _ | MsgEndBeforeStart => true
  | _ => false
  end.

Definition reports_validation_error (evs : list event) : bool :=
  existsb (fun e => match e with Printed m => validation_message m | Spawn _ => false end) evs.

(** Validation errors come before any process: no command is started
    before a validation message is printed. *)
Definition validation_precedes_processes (evs : list event) : Prop :=
  forall pre m post,
    evs = pre ++ Printed m :: post -> validation_message m = true -> spawned pre = [].

Definition version_cmd : list string := ["ffmpeg"; "-version"]%string.

Definition probe_cmd (input_file : string) : list string :=
  ["ffprobe"; "-v"; "error"; "-show_entries"; "format=duration";
   "-of"; "default=noprint_wrappers=1:nokey=1"; input_file]%string.

(** The time window as section 4.1 of the specification derives it from
    the resolved start and end. *)
Inductive window :=
  | Rejected
  | Window (offset duration : option float).

Definition spec_window (start_seconds end_seconds : option float) : window :=
  match start_seconds, end_seconds with
  | Some a, Some b =>
      if (b - a <=? 0)%float then Rejected else Window (Some a) (Some (b - a)%float)
  | Some a, None => Window (Some a) None
  | None, Some b => Window None (Some b)
  | None, None => Window None None
  end.

Definition trim_arguments (str_float : float -> string)
    (offset duration : option float) : list string :=
  match offset with Some a => ["-ss"%string; str_float a] | None => [] end
  ++ match duration with Some d => ["-t"%string; str_float d] | None => [] end.

(** A value Python compares as [0 <= x]. *)
Definition nonneg (x : float) : bool := (0 <=? x)%float.

(** The parts the normalizer converts: the expression itself when it is a
    number, its colon-separated segments otherwise. *)
Definition components (t : string) : list string :=
  match Py.float t with
  | Some _ => [t]
  | None => Py.split ":" t
  end.

Definition nonneg_component (p : string) : bool :=
  match Py.float p with
  | Some x => nonneg x
  | None => false
  end.

(** A time expression is well formed when it has one, two or three
    colon-separated segments and each parses as a number. *)
Definition parses (p : string) : bool :=
  match Py.float p with
  | Some _ => true
  | None => false
  end.

Definition well_formed (t : string) : bool :=
  let parts := Py.split ":" t in
  ((1 <=? length parts)%nat && (length parts <=? 3)%nat) && forallb parses parts.

(** The palette artifact is gone. *)
Definition palette_removed (w : world) : Prop := "palette.png"%string ∉ files w.

(** Width resolution as the specification words it: a failure, or a
    positive width. *)
Definition positive_or_invalid (r : result Z) : Prop :=
  match r with
  | Ok n => 0 < n
  | Raise e => e = SystemExit 1
  end.

(** A platform for the concrete runs.  [sample_str] is [str] on the
    floats whose text is plain (zeros, infinities, nan, and the integers
    below [10^16], as in ["45.0"]) and renders no other value; the
    theorems hold for every [str].  [working_encoder] always succeeds and
    writes its last argument; the palette pass of [failing_palette_pass]
    writes the palette and then fails. *)
Definition sample_str (x : float) : string :=
  match Prim2SF x with
  | S754_zero s => if s then "-0.0" else "0.0"
  | S754_infinity s => if s then "-inf" else "inf"
  | S754_nan => "nan"
  | S754_finite s m e =>
      let n := if 0 <=? e then Zpos m * 2 ^ e else Zpos m / 2 ^ (- e) in
      if ((0 <=? e) || (Zpos m mod 2 ^ (- e) =? 0)) && (n <? 10 ^ 16)
      then ((if s then "-" else "") +:+ Py.str_int n +:+ ".0")%string
      else ""%string
  end.

Definition working_encoder (cmd : list string) (fs : gset string)
  : proc_result * gset string :=
  match last cmd with
  | Some out =>
      if String.eqb out "-version" then (Exited true "", fs)
      else (Exited true "", fs ∪ {[out]})
  | None => (Exited true "", fs)
  end.

Definition failing_palette_pass (cmd : list string) (fs : gset string)
  : proc_result * gset string :=
  match last cmd with
  | Some out =>
      if String.eqb out "palette.png" then (Exited false "", fs ∪ {[out]})
      else (Exited true "", fs)
  | None => (Exited true "", fs)
  end.

(** The sign test on the specification's representation of a float. *)
Definition SFnonneg (x : spec_float) : bool :=
  match x with
  | S754_zero _ => true
  | S754_infinity s | S754_finite s _ _ => negb s
  | S754_nan => false
  end.

(** A world that holds the input only, nothing run yet. *)
Definition sample_world : world := World {["in.mp4"%string]} [].

(** The output of the normalizer is never negative. *)
Definition always_nonneg (t : string) : Prop :=
  forall x, timestamp_to_seconds (Some t) = Ok (Some x) -> nonneg x = true.

(** The subprocess oracle: what a command does to the file system and
    how it ends. *)
Abbreviation oracle := (list string -> gset string -> proc_result * gset string).

(** The lines that report an error, each starting with [Error]. *)
Definition error_message (m : message) : bool :=
  match m with
  | MsgInputNotFound _ | MsgEndBeforeStart | MsgPaletteError _ | MsgGifError _
  | MsgFfmpegMissing | MsgInvalidWidth _ | MsgError _ => true
  | _ => false
  end.

Definition reports_error (evs : list event) : bool :=
  existsb (fun e => match e with Printed m => error_message m | Spawn _ => false end) evs.

(** The exit status of the interpreter for the way [main] ends: that of
    [sys.exit], 1 for an uncaught exception, 0 for a normal return. *)
Definition exit_status (r : result unit) : Z :=
  match r with
  | Ok _ => 0
  | Raise (SystemExit c) => c
  | Raise _ => 1
  end.

(** The line [--list-info] prints for a probe that exited, with status
    zero or not, and wrote [out]; none for a duration that is infinite
    or NaN, which line 234 cannot render. *)
Definition duration_message (zero : bool) (out : string) : option message :=
  if zero then
    match Py.float (Py.str_strip out) with
    | Some d =>
        if truthy_float d
        then if is_finite d then Some (MsgVideoDuration d) else None
        else Some MsgNoDuration
    | None => Some MsgNoDuration
    end
  else Some MsgNoDuration.

(** More platforms for the concrete runs: no program installed at all;
    a probe that writes [out]; no probe installed. *)
Definition nothing_installed : oracle := fun _ fs => (NotFound, fs).

Definition with_probe_output (out : string) : oracle := fun cmd fs =>
  match cmd with
  | prog :: _ => if String.eqb prog "ffprobe" then (Exited true out, fs)
                 else working_encoder cmd fs
  | [] => working_encoder cmd fs
  end.

Definition without_ffprobe : oracle := fun cmd fs =>
  match cmd with
  | prog :: _ => if String.eqb prog "ffprobe" then (NotFound, fs)
                 else working_encoder cmd fs
  | [] => working_encoder cmd fs
  end.

(** What the probe writes for a stream of no length: the number and a
    line feed. *)
Definition zero_seconds : string := "0.000000" +:+ String "010"%char "".

(** The characters of a decimal numeral. *)
Abbreviation digits_of d := (list_ascii_of_string (NilEmpty.string_of_uint d)).

(** A width token that resolves to nothing: it is not empty, no preset
    and no integer. *)
Definition unknown_width (token : option string) : bool :=
  match token with
  | Some t =>
      match RECOMMENDED_WIDTHS !! Py.lower t, Py.int t with
      | None, None => truthy token
      | _, _ => false
      end
  | None => false
  end.

(** The requests that validation refuses, in the file system [fs] it
    looks at: the input is missing, the width is unknown, a start or end
    that is not empty is malformed, or start and end resolve to a window
    that is rejected. *)
Definition invalid_request (args : Namespace) (fs : gset string) : Prop :=
  input args ∉ fs
  \/ unknown_width (width args) = true
  \/ (exists t, (start args = Some t \/ end_ args = Some t)
                /\ t <> ""%string /\ well_formed t = false)
  \/ (exists so eo, timestamp_to_seconds (start args) = Ok so
                    /\ timestamp_to_seconds (end_ args) = Ok eo
                    /\ spec_window so eo = Rejected).

(** The command line of the encoder.  ffmpeg reads its arguments from
    left to right, and its manual has it that options are applied to the
    next specified file: the per-file options read since the last file
    belong to the input the next [-i url] names, or to the output the
    next plain argument names.  Of the options the program passes,
    [-ss], [-t] and [-vf] are per-file and take one argument; [-y] and
    [-lavfi] (with its argument) are global and belong to no file.  As
    an option of an input, [-ss] seeks in that input and [-t] limits
    what is read from it; as an option of an output they cut what is
    written. *)
Inductive ffmpeg_file :=
  | InputFile (url : string)
  | OutputFile (url : string).

Record ffmpeg_group := Group {
  group_file : ffmpeg_file;
  group_options : list (string * string)
}.

Definition per_file_option (a : string) : bool :=
  String.eqb a "-ss" || String.eqb a "-t" || String.eqb a "-vf".

(** An argument that starts with a dash and is longer than it. *)
Definition is_option (a : string) : bool :=
  match a with
  | String "-" (String _ _) => true
  | _ => false
  end.

(** The files of a command line (without the program name), each with
    the options applied to it; reading stops at an option the program
    never passes, or at one that lacks its argument. *)
Fixpoint ffmpeg_groups (args : list string) (pending : list (string * string))
  : list ffmpeg_group :=
  match args with
  | [] => []
  | a :: rest =>
      if String.eqb a "-i" then
        match rest with
        | url :: rest' => Group (InputFile url) pending :: ffmpeg_groups rest' []
        | [] => []
        end
      else if String.eqb a "-y" then ffmpeg_groups rest pending
      else if String.eqb a "-lavfi" then
        match rest with
        | _ :: rest' => ffmpeg_groups rest' pending
        | [] => []
        end
      else if per_file_option a then
        match rest with
        | v :: rest' => ffmpeg_groups rest' (pending ++ [(a, v)])
        | [] => []
        end
      else if is_option a then []
      else Group (OutputFile a) pending :: ffmpeg_groups rest []
  end.

(** The window options among the options of a file. *)
Definition window_options (opts : list (string * string)) : list (string * string) :=
  List.filter (fun o => String.eqb (fst o) "-ss" || String.eqb (fst o) "-t") opts.

(** The files a command applies a window to, each with that window. *)
Definition trimmed_files (cmd : list string) : list (ffmpeg_file * list (string * string)) :=
  omap (fun g => match window_options (group_options g) with
                 | [] => None
                 | o => Some (group_file g, o)
                 end)
       (ffmpeg_groups (tail cmd) []).

(** The trim arguments as options with their values. *)
Definition trim_options (str_float : float -> string)
    (offset duration : option float) : list (string * string) :=
  match offset with Some a => [("-ss"%string, str_float a)] | None => [] end
  ++ match duration with Some d => [("-t"%string, str_float d)] | None => [] end.

(** ** Proof tools *)

Ltac unfold_monad :=
  unfold mbind, M_bind, mret, M_ret, try_except, print, lift, raise, sys_exit,
    os_path_exists, os_remove, os_path_getsize in *.

(** ** Facts about the built-ins *)

Section Colon.

Import Py.

Lemma In_lstrip sp c l : sp c = false -> In c l -> In c (lstrip sp l).
Proof.
  intros Hc. induction l as [|a l IH]; simpl; [tauto|].
  intros [->|Hin].
  - rewrite Hc. now left.
  - destruct (sp a); [auto | now right].
Qed.

Lemma In_strip sp c l : sp c = false -> In c l -> In c (strip sp l).
Proof.
  intros Hc Hin. unfold strip.
  apply in_rev. rewrite rev_involutive.
  apply In_lstrip; [assumption|]. apply -> in_rev. now apply In_lstrip.
Qed.

Lemma In_drop_underscores c prev l l' :
  c <> "_"%char -> drop_underscores prev l = Some l' -> In c l -> In c l'.
Proof.
  intros Hc. revert prev l'. induction l as [|a l IH]; simpl; intros prev l' H Hin; [tauto|].
  destruct (Ascii.eqb_spec a "_") as [->|Ha].
  - destruct Hin as [E|Hin]; [congruence|].
    destruct (Py_ISDIGIT prev); [eauto | discriminate].
  - destruct (Ascii.eqb prev "_" && negb (Py_ISDIGIT a)); [discriminate|].
    destruct (drop_underscores a l) as [t|] eqn:E; [|discriminate].
    injection H as <-. destruct Hin as [->|Hin]; [now left | right; eauto].
Qed.

Lemma span_digits_app l d t : span_digits l = (d, t) -> l = d ++ t /\ forallb Py_ISDIGIT d = true.
Proof.
  revert d t. induction l as [|a l IH]; simpl; intros d t H.
  - now injection H as <- <-.
  - destruct (Py_ISDIGIT a) eqn:Ha.
    + destruct (span_digits l) as [d' t'] eqn:E. injection H as <- <-.
      destruct (IH _ _ eq_refl) as [-> Hd]. simpl. now rewrite Ha.
    + now injection H as <- <-.
Qed.

Lemma In_span_digits c l d t :
  Py_ISDIGIT c = false -> span_digits l = (d, t) -> In c l -> In c t.
Proof.
  intros Hc H Hin. apply span_digits_app in H as [-> Hd].
  apply in_app_or in Hin as [Hin|]; [|assumption].
  rewrite forallb_forall in Hd. apply Hd in Hin. congruence.
Qed.

Lemma In_parse_sign c l :
  c <> "-"%char -> c <> "+"%char -> In c l -> In c (snd (parse_sign l)).
Proof.
  intros H1 H2. destruct l as [|a l]; simpl; [tauto|].
  intros Hin.
  destruct (Ascii.eqb_spec a "-") as [->|]; simpl.
  { destruct Hin; [congruence | assumption]. }
  destruct (Ascii.eqb_spec a "+") as [->|]; simpl.
  { destruct Hin; [congruence | assumption]. }
  assumption.
Qed.

Lemma parse_exponent_colon l : In colon l -> parse_exponent l = None.
Proof.
  destruct l as [|a l]; simpl; [tauto|]. intros Hin.
  destruct (Ascii.eqb a "e" || Ascii.eqb a "E") eqn:Ha; [|reflexivity].
  destruct Hin as [->|Hin]; [discriminate|].
  pose proof (In_parse_sign colon l ltac:(discriminate) ltac:(discriminate) Hin) as Hs.
  destruct (parse_sign l) as [eneg r1]. simpl in Hs.
  destruct (span_digits r1) as [ds r2] eqn:E.
  pose proof (In_span_digits colon _ _ _ eq_refl E Hs) as Hr.
  destruct ds; [reflexivity|]. destruct r2; [destruct Hr | reflexivity].
Qed.

Lemma dg_strtod_colon l : In colon l -> dg_strtod l = None.
Proof.
  intros Hin. unfold dg_strtod.
  pose proof (In_parse_sign colon l ltac:(discriminate) ltac:(discriminate) Hin) as Hs.
  destruct (parse_sign l) as [neg l1]. simpl in Hs.
  destruct (span_digits l1) as [ip l2] eqn:E.
  pose proof (In_span_digits colon _ _ _ eq_refl E Hs) as H2.
  assert (exists fp l3,
    match l2 with
    | c :: r => if Ascii.eqb c "." then span_digits r else ([], l2)
    | [] => ([], [])
    end = (fp, l3) /\ In colon l3) as (fp & l3 & -> & H3).
  { destruct l2 as [|c r]; [destruct H2|].
    destruct (Ascii.eqb_spec c ".") as [->|].
    - destruct H2 as [?|H2]; [discriminate|].
      destruct (span_digits r) as [fp l3] eqn:E'.
      exists fp, l3. split; [reflexivity|]. eapply In_span_digits; eauto.
    - eauto. }
  rewrite (parse_exponent_colon _ H3). now destruct (ip ++ fp).
Qed.

Lemma parse_inf_or_nan_colon l : In colon l -> parse_inf_or_nan l = None.
Proof.
  intros Hin. unfold parse_inf_or_nan.
  pose proof (In_parse_sign colon l ltac:(discriminate) ltac:(discriminate) Hin) as Hs.
  destruct (parse_sign l) as [neg r]. simpl in Hs.
  apply (in_map Py_TOLOWER) in Hs. change (Py_TOLOWER colon) with colon in Hs.
  set (w := map Py_TOLOWER r) in *.
  assert (forall k : string, ~ In colon (list_ascii_of_string k) ->
            String.eqb (string_of_list_ascii w) k = false) as Hne.
  { intros k Hk. apply String.eqb_neq. intros <-.
    now rewrite list_ascii_of_string_of_list_ascii in Hk. }
  rewrite !Hne; [reflexivity | | |]; simpl; intuition discriminate.
Qed.

(** A string that [float] accepts holds no colon. *)
Lemma float_no_colon s x : Py.float s = Some x -> ~ In colon (list_ascii_of_string s).
Proof.
  unfold Py.float. intros H Hin.
  apply (In_strip Py_ISSPACE) in Hin; [|reflexivity].
  destruct (drop_underscores _ _) as [l|] eqn:E; [|discriminate].
  eapply In_drop_underscores in Hin; [|discriminate|exact E].
  rewrite (dg_strtod_colon _ Hin), (parse_inf_or_nan_colon _ Hin) in H. discriminate.
Qed.

Lemma split_on_no_sep sep l : ~ In sep l -> split_on sep l = [l].
Proof.
  induction l as [|a l IH]; simpl; [reflexivity|]. intros H.
  destruct (Ascii.eqb_spec a sep) as [->|]; [tauto|].
  rewrite IH; tauto.
Qed.

Lemma split_on_app sep a b :
  ~ In sep a -> split_on sep (a ++ sep :: b) = a :: split_on sep b.
Proof.
  induction a as [|c a IH]; simpl; intros H.
  - now rewrite Ascii.eqb_refl.
  - destruct (Ascii.eqb_spec c sep) as [->|]; [tauto|].
    rewrite IH; tauto.
Qed.

Lemma list_ascii_of_string_app (a b : string) :
  list_ascii_of_string (a +:+ b) = list_ascii_of_string a ++ list_ascii_of_string b.
Proof.
  induction a as [|c a IH]; [reflexivity|].
  change (String c a +:+ b) with (String c (a +:+ b)). simpl. now rewrite IH.
Qed.

Lemma split_no_sep sep s : ~ In sep (list_ascii_of_string s) -> split sep s = [s].
Proof.
  intros H. unfold split. rewrite split_on_no_sep by assumption.
  simpl. now rewrite string_of_list_ascii_of_string.
Qed.

Lemma split_app sep (a b : string) :
  ~ In sep (list_ascii_of_string a) ->
  split sep (a +:+ String sep b) = a :: split sep b.
Proof.
  intros H. unfold split. rewrite list_ascii_of_string_app. simpl.
  rewrite split_on_app by assumption. simpl.
  now rewrite string_of_list_ascii_of_string.
Qed.

(** A string with a colon is not a number. *)
Lemma float_colon_None (a b : string) : Py.float (a +:+ String colon b) = None.
Proof.
  destruct (Py.float _) eqn:E; [|reflexivity].
  apply float_no_colon in E. exfalso. apply E.
  rewrite list_ascii_of_string_app. apply in_or_app. right. now left.
Qed.

End Colon.

(** ** The timestamp normalizer *)

Lemma float_or_raise_Some s x : Py.float s = Some x -> float_or_raise s = Ok x.
Proof. unfold float_or_raise. now intros ->. Qed.

Lemma float_or_raise_None s :
  Py.float s = None -> float_or_raise s = Raise (ValueError (CouldNotConvert s)).
Proof. unfold float_or_raise. now intros ->. Qed.

Lemma timestamp_number s x : Py.float s = Some x -> timestamp_to_seconds_str s = Ok x.
Proof. unfold timestamp_to_seconds_str. now intros ->. Qed.

Lemma colon_cons (s : string) : (":" +:+ s)%string = String ":" s.
Proof. reflexivity. Qed.

Lemma timestamp_pair m s fm fs :
  Py.float m = Some fm -> Py.float s = Some fs ->
  timestamp_to_seconds_str (m +:+ ":" +:+ s) = Ok (fm * 60 + fs)%float.
Proof.
  intros Hm Hs. unfold timestamp_to_seconds_str.
  rewrite colon_cons, float_colon_None.
  rewrite split_app by eauto using float_no_colon.
  rewrite split_no_sep by eauto using float_no_colon.
  now rewrite (float_or_raise_Some _ _ Hm), (float_or_raise_Some _ _ Hs).
Qed.

Lemma timestamp_triple h m s fh fm fs :
  Py.float h = Some fh -> Py.float m = Some fm -> Py.float s = Some fs ->
  timestamp_to_seconds_str (h +:+ ":" +:+ m +:+ ":" +:+ s)
  = Ok (fh * 3600 + fm * 60 + fs)%float.
Proof.
  intros Hh Hm Hs. unfold timestamp_to_seconds_str.
  rewrite !colon_cons, float_colon_None.
  rewrite !split_app by eauto using float_no_colon.
  rewrite split_no_sep by eauto using float_no_colon.
  now rewrite (float_or_raise_Some _ _ Hh), (float_or_raise_Some _ _ Hm),
    (float_or_raise_Some _ _ Hs).
Qed.

Lemma parses_false p : parses p = false -> Py.float p = None.
Proof. unfold parses. now destruct (Py.float p). Qed.

Lemma float_or_raise_cases p :
  (exists x, Py.float p = Some x /\ float_or_raise p = Ok x /\ parses p = true)
  \/ (float_or_raise p = Raise (ValueError (CouldNotConvert p)) /\ parses p = false).
Proof. unfold float_or_raise, parses. destruct (Py.float p); eauto. Qed.

(** A malformed expression makes the normalizer raise [ValueError]. *)
Lemma malformed_raises t :
  well_formed t = false -> exists e, timestamp_to_seconds_str t = Raise (ValueError e).
Proof.
  unfold well_formed, timestamp_to_seconds_str. intros H.
  destruct (Py.float t) as [x|] eqn:Ht.
  { rewrite split_no_sep in H by eauto using float_no_colon.
    simpl in H. unfold parses in H. rewrite Ht in H. discriminate. }
  destruct (Py.split ":" t) as [|a [|b [|c [|d l]]]]; simpl in H; eauto.
  - destruct (float_or_raise_cases a) as [(x & _ & -> & Ha)|[-> Ha]]; eauto.
    rewrite Ha in H. discriminate.
  - destruct (float_or_raise_cases a) as [(x & _ & -> & Ha)|[-> Ha]]; eauto.
    destruct (float_or_raise_cases b) as [(y & _ & -> & Hb)|[-> Hb]]; eauto.
    rewrite Ha, Hb in H. discriminate.
  - destruct (float_or_raise_cases a) as [(x & _ & -> & Ha)|[-> Ha]]; eauto.
    destruct (float_or_raise_cases b) as [(y & _ & -> & Hb)|[-> Hb]]; eauto.
    destruct (float_or_raise_cases c) as [(z & _ & -> & Hc)|[-> Hc]]; eauto.
    rewrite Ha, Hb, Hc in H. discriminate.
Qed.

(** Conversely an expression the normalizer accepts is well formed. *)
Lemma accepted_well_formed t x : timestamp_to_seconds_str t = Ok x -> well_formed t = true.
Proof.
  intros H. destruct (well_formed t) eqn:E; [reflexivity|].
  apply malformed_raises in E as [e E]. congruence.
Qed.

(** ** Signs in binary64 arithmetic *)

Lemma nonneg_spec x : nonneg x = SFnonneg (Prim2SF x).
Proof.
  unfold nonneg. rewrite leb_spec.
  change (Prim2SF 0) with (S754_zero false).
  unfold SFleb. now destruct (Prim2SF x) as [| [] | | [] ? ?].
Qed.

Lemma shr_1_nonneg mrs : 0 <= shr_m mrs -> 0 <= shr_m (shr_1 mrs).
Proof.
  destruct mrs as [m r s]. simpl.
  destruct m as [|[p|p|]|[p|p|]]; simpl; lia.
Qed.

Lemma iter_pos_shr_1_nonneg p mrs :
  0 <= shr_m mrs -> 0 <= shr_m (SpecFloat.iter_pos shr_1 p mrs).
Proof.
  revert mrs. induction p as [p IH|p IH|]; simpl; intros mrs H;
    auto using shr_1_nonneg.
Qed.

Lemma shr_fexp_nonneg m e l :
  0 <= m -> 0 <= shr_m (fst (shr_fexp prec emax m e l)).
Proof.
  intros H. unfold shr_fexp, shr.
  assert (0 <= shr_m (shr_record_of_loc m l)) by (destruct l as [|[]]; simpl; lia).
  destruct (fexp prec emax (Zdigits2 m + e) - e); simpl;
    auto using iter_pos_shr_1_nonneg.
Qed.

Lemma round_nearest_even_nonneg m l : 0 <= m -> 0 <= round_nearest_even m l.
Proof.
  intros H. unfold round_nearest_even.
  destruct l as [|[]]; [lia | | lia | lia].
  destruct (Z.even m); lia.
Qed.

Lemma binary_round_aux_nonneg m e l :
  0 <= m -> SFnonneg (binary_round_aux prec emax false m e l) = true.
Proof.
  intros H. unfold binary_round_aux.
  pose proof (shr_fexp_nonneg m e l H) as H1.
  destruct (shr_fexp prec emax m e l) as [mrs' e']. simpl in H1.
  pose proof (shr_fexp_nonneg _ e' loc_Exact
                (round_nearest_even_nonneg _ (loc_of_shr_record mrs') H1)) as H2.
  destruct (shr_fexp prec emax (round_nearest_even _ _) e' loc_Exact) as [mrs'' e''].
  simpl in H2. destruct (shr_m mrs''); [reflexivity | | lia].
  now destruct (e'' <=? emax - prec).
Qed.

Lemma binary_round_nonneg m e : SFnonneg (binary_round prec emax false m e) = true.
Proof.
  unfold binary_round. destruct (shl_align _ _ _) as [mz ez].
  apply binary_round_aux_nonneg. lia.
Qed.

Lemma SFmul_nonneg x y :
  SFnonneg x = true -> SFnonneg y = true ->
  (exists m e, y = S754_finite false m e) ->
  SFnonneg (SFmul prec emax x y) = true.
Proof.
  intros Hx _ (m & e & ->).
  destruct x as [s|[]| |[] mx ex]; try discriminate; simpl; try reflexivity.
  apply binary_round_aux_nonneg. lia.
Qed.

Lemma SFadd_nonneg x y :
  SFnonneg x = true -> SFnonneg y = true -> SFnonneg (SFadd prec emax x y) = true.
Proof.
  intros Hx Hy.
  destruct x as [sx|[]| |[] mx ex]; try discriminate;
    destruct y as [sy|[]| |[] my ey]; try discriminate; simpl; try reflexivity.
  - now destruct sx, sy.
  - destruct (shl_align mx ex (Z.min ex ey)) as [a ?], (shl_align my ey (Z.min ex ey)) as [b ?].
    simpl. apply binary_round_nonneg.
Qed.

Lemma mul_const_nonneg x c :
  nonneg x = true -> (exists m e, Prim2SF c = S754_finite false m e) ->
  nonneg (x * c)%float = true.
Proof.
  rewrite !nonneg_spec, mul_spec. intros Hx (m & e & Hc).
  apply SFmul_nonneg; [assumption | now rewrite Hc | eauto].
Qed.

Lemma add_nonneg x y : nonneg x = true -> nonneg y = true -> nonneg (x + y)%float = true.
Proof. rewrite !nonneg_spec, add_spec. apply SFadd_nonneg. Qed.

Lemma mul_60_nonneg x : nonneg x = true -> nonneg (x * 60)%float = true.
Proof. intros H. apply mul_const_nonneg; [assumption|]. vm_compute. eauto. Qed.

Lemma mul_3600_nonneg x : nonneg x = true -> nonneg (x * 3600)%float = true.
Proof. intros H. apply mul_const_nonneg; [assumption|]. vm_compute. eauto. Qed.

Lemma nonneg_component_spec p :
  nonneg_component p = true -> exists x, float_or_raise p = Ok x /\ nonneg x = true.
Proof.
  unfold nonneg_component, float_or_raise. destruct (Py.float p); [eauto | discriminate].
Qed.

Lemma nonneg_components_result t x :
  timestamp_to_seconds_str t = Ok x ->
  forallb nonneg_component (components t) = true ->
  nonneg x = true.
Proof.
  unfold timestamp_to_seconds_str, components.
  destruct (Py.float t) as [y|] eqn:Ht.
  { intros [= <-]. simpl. unfold nonneg_component. rewrite Ht.
    now rewrite andb_true_r. }
  destruct (Py.split ":" t) as [|a [|b [|c [|d l]]]]; simpl; try discriminate;
    rewrite ?andb_true_r, ?andb_true_iff; intros H Hc.
  - apply nonneg_component_spec in Hc as (u & E & Hu). congruence.
  - destruct Hc as [Ha Hb].
    apply nonneg_component_spec in Ha as (u & Ea & Hu).
    apply nonneg_component_spec in Hb as (v & Eb & Hv).
    rewrite Ea, Eb in H. injection H as <-.
    auto using add_nonneg, mul_60_nonneg.
  - destruct Hc as (Ha & Hb & Hc).
    apply nonneg_component_spec in Ha as (u & Ea & Hu).
    apply nonneg_component_spec in Hb as (v & Eb & Hv).
    apply nonneg_component_spec in Hc as (z & Ec & Hz).
    rewrite Ea, Eb, Ec in H. injection H as <-.
    auto using add_nonneg, mul_60_nonneg, mul_3600_nonneg.
Qed.

(** ** Runs of the program *)

Lemma spawned_app a b : spawned (a ++ b) = spawned a ++ spawned b.
Proof. unfold spawned. apply omap_app. Qed.

Lemma reports_app a b :
  reports_validation_error (a ++ b)
  = reports_validation_error a || reports_validation_error b.
Proof. unfold reports_validation_error. apply existsb_app. Qed.

Lemma timestamp_raises_ValueError t e :
  timestamp_to_seconds_str t = Raise e -> exists v, e = ValueError v.
Proof.
  unfold timestamp_to_seconds_str, float_or_raise.
  destruct (Py.float t); [discriminate|].
  destruct (Py.split ":" t) as [|a [|b [|c [|d l]]]];
    repeat match goal with
           | |- context [Py.float ?p] => destruct (Py.float p)
           end;
    intros [= <-]; eauto.
Qed.

Section Runs.

Context (str_float : float -> string).
Context (child : list string -> gset string -> proc_result * gset string).


Lemma check_ffmpeg_run w :
  exists b fs, check_ffmpeg child w = (Ok b, World fs (events w ++ [Spawn version_cmd])).
Proof.
  unfold check_ffmpeg, subprocess_run. unfold_monad.
  fold version_cmd.
  destruct (child version_cmd (files w)) as [[[] out|] fs]; eauto.
Qed.

Lemma get_video_duration_run input_file w :
  exists r fs,
    get_video_duration child input_file w
    = (r, World fs (events w ++ [Spawn (probe_cmd input_file)])).
Proof.
  unfold get_video_duration, subprocess_run. unfold_monad.
  fold (probe_cmd input_file).
  destruct (child (probe_cmd input_file) (files w)) as [[[] out|] fs]; eauto.
  unfold float_or_raise. destruct (Py.float _); eauto.
Qed.

(** The command is the input followed by the trim arguments of the window
    the specification derives; a rejected window is reported and nothing
    else happens. *)
Lemma build_cmd_spec input_file start end_ w :
  match timestamp_to_seconds start, timestamp_to_seconds end_ with
  | Ok so, Ok eo =>
      match spec_window so eo with
      | Rejected =>
          build_cmd str_float input_file start end_ w
          = (Ok None, World (files w) (events w ++ [Printed MsgEndBeforeStart]))
      | Window o d =>
          build_cmd str_float input_file start end_ w
          = (Ok (Some (["ffmpeg"; "-i"; input_file]%string
                       ++ trim_arguments str_float o d)), w)
      end
  | _, _ => exists v, build_cmd str_float input_file start end_ w = (Raise (ValueError v), w)
  end.
Proof.
  unfold build_cmd, timestamp_to_seconds. unfold_monad.
  destruct start as [s|], end_ as [e|]; simpl.
  - destruct (timestamp_to_seconds_str s) as [a|x] eqn:Ea.
    + destruct (timestamp_to_seconds_str e) as [b|y] eqn:Eb.
      * simpl. destruct (b - a <=? 0)%float; reflexivity.
      * apply timestamp_raises_ValueError in Eb as [v ->]. eauto.
    + apply timestamp_raises_ValueError in Ea as [v ->].
      destruct (timestamp_to_seconds_str e); eauto.
  - destruct (timestamp_to_seconds_str s) as [a|x] eqn:Ea; [reflexivity|].
    apply timestamp_raises_ValueError in Ea as [v ->]. eauto.
  - destruct (timestamp_to_seconds_str e) as [b|y] eqn:Eb; [reflexivity|].
    apply timestamp_raises_ValueError in Eb as [v ->]. eauto.
  - reflexivity.
Qed.

Lemma remove_palette_run w :
  remove_palette w = (Ok tt, World (files w ∖ {["palette.png"%string]}) (events w)).
Proof.
  unfold remove_palette. unfold_monad.
  destruct w as [fs evs]. simpl.
  destruct (decide ("palette.png"%string ∈ fs)) as [H|H].
  - now rewrite !bool_decide_true by assumption.
  - rewrite bool_decide_false by assumption.
    do 2 f_equal. symmetry. apply difference_disjoint_L.
    now apply disjoint_singleton_r.
Qed.

(** What the two passes do, by the way each child process ends. *)
Lemma run_passes_cases cmd width fps out w :
  let P := palette_cmd cmd width fps in
  let G := gif_cmd cmd width fps out in
  let e1 := events w ++ [Printed MsgGeneratingPalette; Spawn P] in
  let e2 := e1 ++ [Printed MsgConverting; Spawn G] in
  run_passes child cmd width fps out w =
  match child P (files w) with
  | (NotFound, _) => (Raise FileNotFoundError, World (files w) e1)
  | (Exited false _, fs1) =>
      (Ok false, World fs1 (e1 ++ [Printed (MsgPaletteError (CalledProcessError P))]))
  | (Exited true _, fs1) =>
      match child G fs1 with
      | (NotFound, _) => (Raise FileNotFoundError, World fs1 e2)
      | (Exited false _, fs2) =>
          (Ok false, World (fs2 ∖ {["palette.png"%string]})
                           (e2 ++ [Printed (MsgGifError (CalledProcessError G))]))
      | (Exited true _, fs2) =>
          if bool_decide (out ∈ fs2 ∖ {["palette.png"%string]})
          then (Ok true, World (fs2 ∖ {["palette.png"%string]})
                               (e2 ++ [Printed (MsgCreated out)]))
          else (Raise FileNotFoundError, World (fs2 ∖ {["palette.png"%string]}) e2)
      end
  end.
Proof.
  intros P G e1 e2. subst e2 e1.
  unfold run_passes, subprocess_run. fold P G.
  unfold mbind, M_bind, try_except, print, mret, M_ret, os_path_getsize. simpl.
  destruct (child P _) as [[[] o1|] fs1]; simpl.
  - destruct (child G fs1) as [[[] o2|] fs2]; simpl;
      rewrite ?remove_palette_run; simpl.
    + case_bool_decide; simpl; rewrite <- !app_assoc; reflexivity.
    + rewrite <- !app_assoc. reflexivity.
    + rewrite <- !app_assoc. reflexivity.
  - rewrite <- !app_assoc. reflexivity.
  - rewrite <- !app_assoc. reflexivity.
Qed.

(** The two passes print no validation message and start the palette
    command, then possibly the final command, and nothing else. *)
Lemma run_passes_trace cmd width fps out w :
  exists tr,
    events (snd (run_passes child cmd width fps out w)) = events w ++ tr
    /\ reports_validation_error tr = false
    /\ (spawned tr = [palette_cmd cmd width fps]
        \/ spawned tr = [palette_cmd cmd width fps; gif_cmd cmd width fps out]).
Proof.
  pose proof (run_passes_cases cmd width fps out w) as H. simpl in H. rewrite H.
  destruct (child (palette_cmd _ _ _) _) as [[[] o1|] fs1]; simpl.
  - destruct (child (gif_cmd _ _ _ _) _) as [[[] o2|] fs2]; simpl.
    + case_bool_decide; simpl; rewrite <- !app_assoc; eexists; split;
        try reflexivity; simpl; auto.
    + rewrite <- !app_assoc; eexists; split; try reflexivity; simpl; auto.
    + rewrite <- !app_assoc; eexists; split; try reflexivity; simpl; auto.
  - rewrite <- !app_assoc; eexists; split; try reflexivity; simpl; auto.
  - eexists; split; try reflexivity; simpl; auto.
Qed.

Lemma video_to_gif_cases input_file output_file width start end_ fps w :
  video_to_gif str_float child input_file output_file width start end_ fps w =
  if bool_decide (input_file ∈ files w) then
    match build_cmd str_float input_file start end_ w with
    | (Ok (Some cmd), w1) =>
        run_passes child cmd width fps (output_name input_file output_file) w1
    | (Ok None, w1) => (Ok false, w1)
    | (Raise e, w1) => (Raise e, w1)
    end
  else (Ok false, World (files w) (events w ++ [Printed (MsgInputNotFound input_file)])).
Proof.
  unfold video_to_gif. unfold_monad.
  case_bool_decide; simpl; [|reflexivity].
  now destruct (build_cmd _ _ _ _ w) as [[[cmd|]|e] w1].
Qed.

(** A run of [video_to_gif] either starts no process at all, or it passed
    validation and started the palette command, possibly followed by the
    final command, both built on the window of the specification. *)
Lemma video_to_gif_trace input_file output_file width start end_ fps w :
  exists tr,
    events (snd (video_to_gif str_float child input_file output_file width start end_ fps w))
    = events w ++ tr
    /\ (spawned tr = []
        \/ (reports_validation_error tr = false
            /\ exists so eo o d,
                timestamp_to_seconds start = Ok so
                /\ timestamp_to_seconds end_ = Ok eo
                /\ spec_window so eo = Window o d
                /\ let cmd := ["ffmpeg"; "-i"; input_file]%string
                              ++ trim_arguments str_float o d in
                   let P := palette_cmd cmd width fps in
                   let G := gif_cmd cmd width fps (output_name input_file output_file) in
                   spawned tr = [P] \/ spawned tr = [P; G])).
Proof.
  rewrite video_to_gif_cases. case_bool_decide.
  2:{ exists [Printed (MsgInputNotFound input_file)]. simpl. auto. }
  pose proof (build_cmd_spec input_file start end_ w) as Hb.
  destruct (timestamp_to_seconds start) as [so|] eqn:Es.
  2:{ destruct Hb as [v ->]. exists []. simpl. rewrite app_nil_r. auto. }
  destruct (timestamp_to_seconds end_) as [eo|] eqn:Ee.
  2:{ destruct Hb as [v ->]. exists []. simpl. rewrite app_nil_r. auto. }
  destruct (spec_window so eo) as [|o d] eqn:Ew; rewrite Hb.
  { exists [Printed MsgEndBeforeStart]. simpl. auto. }
  destruct (run_passes_trace
              (["ffmpeg"; "-i"; input_file]%string ++ trim_arguments str_float o d)
              width fps (output_name input_file output_file) w)
    as (tr & Htr & Hrep & Hsp).
  exists tr. split; [exact Htr|]. right. split; [exact Hrep|].
  exists so, eo, o, d. auto.
Qed.

Lemma process_width_run token w :
  exists r m,
    process_width token w = (r, World (files w) (events w ++ [Printed m]))
    /\ match r with
       | Ok _ => validation_message m = false
       | Raise e => e = SystemExit 1 /\ exists t, token = Some t /\ m = MsgInvalidWidth t
       end.
Proof.
  unfold process_width. unfold_monad.
  destruct token as [t|]; simpl.
  - destruct (negb (String.eqb t "")).
    + destruct (RECOMMENDED_WIDTHS !! Py.lower t).
      * do 2 eexists. split; [reflexivity|]. reflexivity.
      * destruct (Py.int t); do 2 eexists; (split; [reflexivity|]); simpl; eauto.
    + do 2 eexists. split; [reflexivity|]. reflexivity.
  - do 2 eexists. split; [reflexivity|]. reflexivity.
Qed.

Lemma validate_timestamps_run start end_ w :
  validate_timestamps start end_ w = (Ok tt, w)
  \/ exists v,
       validate_timestamps start end_ w
       = (Raise (SystemExit 1),
          World (files w) (events w ++ [Printed (MsgError v); Printed MsgTimestampHint])).
Proof.
  unfold validate_timestamps. unfold_monad.
  assert (forall o : option string,
            (exists x, timestamp_to_seconds o = Ok x)
            \/ exists v, timestamp_to_seconds o = Raise (ValueError v)) as Hts.
  { intros [t|]; simpl; [|eauto].
    destruct (timestamp_to_seconds_str t) eqn:E; [eauto|].
    apply timestamp_raises_ValueError in E as [v ->]. eauto. }
  destruct (truthy start), (truthy end_); simpl; auto;
    repeat match goal with
           | |- context [timestamp_to_seconds ?o] =>
               destruct (Hts o) as [[? ->]|[? ->]]; simpl
           end;
    rewrite <- ?app_assoc; simpl; eauto.
Qed.

(** Every run of [main] begins with the availability check.  After it
    the run starts no process, or only the duration probe, or it passed
    validation and started the encoder passes. *)
Lemma main_trace args fs :
  exists rest,
    events (snd (main str_float child args (World fs []))) = Spawn version_cmd :: rest
    /\ (spawned rest = []
        \/ (list_info args = true
            /\ reports_validation_error rest = false
            /\ spawned rest = [probe_cmd (input args)])
        \/ (list_info args = false
            /\ reports_validation_error rest = false
            /\ exists wd so eo o d,
                timestamp_to_seconds (start args) = Ok so
                /\ timestamp_to_seconds (end_ args) = Ok eo
                /\ spec_window so eo = Window o d
                /\ let cmd := ["ffmpeg"; "-i"; input args]%string
                              ++ trim_arguments str_float o d in
                   let P := palette_cmd cmd (Some wd) (fps args) in
                   let G := gif_cmd cmd (Some wd) (fps args)
                              (output_name (input args) (output args)) in
                   spawned rest = [P] \/ spawned rest = [P; G])).
Proof.
  unfold main. unfold mbind, M_bind.
  destruct (check_ffmpeg_run (World fs [])) as (b & fs1 & ->). simpl.
  destruct b; simpl.
  2:{ unfold print, sys_exit, raise. simpl. eexists. split; [reflexivity|]. auto. }
  unfold mret at 1, M_ret at 1.
  destruct (list_info args) eqn:Hli.
  { destruct (get_video_duration_run (input args) (World fs1 [Spawn version_cmd]))
      as (r & fs2 & ->). simpl.
    destruct r as [[d|]|e]; simpl;
      [destruct (truthy_float d); [destruct (is_finite d)|]| |];
      unfold print, sys_exit, raise; simpl;
      (eexists; split; [reflexivity|]; right; left; auto). }
  destruct (process_width_run (width args) (World fs1 [Spawn version_cmd]))
    as (r & m & -> & Hm). simpl.
  destruct r as [wd|e].
  2:{ eexists. split; [reflexivity|]. auto. }
  destruct (validate_timestamps_run (start args) (end_ args)
              (World fs1 [Spawn version_cmd; Printed m])) as [->|[v ->]].
  2:{ eexists. split; [reflexivity|]. auto. }
  destruct (video_to_gif_trace (input args) (output args) (Some wd) (start args)
              (end_ args) (fps args) (World fs1 [Spawn version_cmd; Printed m]))
    as (tr & Htr & Hcases).
  destruct (video_to_gif _ _ _ _ _ _ _ _ _) as [r w'] eqn:Hrun. simpl in Htr.
  exists (Printed m :: tr). split.
  { destruct r as [[]|e]; unfold sys_exit, raise; simpl; exact Htr. }
  destruct Hcases as [Hnone|(Hrep & so & eo & o & d & Hs & He & Hw & Hsp)].
  { left. exact Hnone. }
  right; right. split; [reflexivity|]. split.
  { simpl. now rewrite Hm, Hrep. }
  exists wd, so, eo, o, d. auto.
Qed.

Lemma run_passes_starts cmd width fps out w :
  exists tr,
    events (snd (run_passes child cmd width fps out w))
    = events w ++ Printed MsgGeneratingPalette :: Spawn (palette_cmd cmd width fps) :: tr.
Proof.
  pose proof (run_passes_cases cmd width fps out w) as H. simpl in H. rewrite H.
  destruct (child (palette_cmd _ _ _) _) as [[[] o1|] fs1]; simpl.
  - destruct (child (gif_cmd _ _ _ _) _) as [[[] o2|] fs2]; simpl;
      [case_bool_decide; simpl| |]; rewrite <- !app_assoc; simpl; eauto.
  - rewrite <- !app_assoc; simpl; eauto.
  - eauto.
Qed.

(** Once the palette pass has exited with status zero and the final pass
    has exited, with whatever status, the palette is gone. *)
Lemma final_pass_cleans_up cmd width fps out w o1 fs1 z o2 fs2 :
  child (palette_cmd cmd width fps) (files w) = (Exited true o1, fs1) ->
  child (gif_cmd cmd width fps out) fs1 = (Exited z o2, fs2) ->
  palette_removed (snd (run_passes child cmd width fps out w)).
Proof.
  intros H1 H2. pose proof (run_passes_cases cmd width fps out w) as H.
  simpl in H. rewrite H, H1, H2. unfold palette_removed.
  destruct z; [case_bool_decide|]; simpl;
    apply not_elem_of_difference; right; now apply elem_of_singleton.
Qed.

End Runs.

(** ** More runs *)

Section MoreRuns.

Context (str_float : float -> string).
Context (child : list string -> gset string -> proc_result * gset string).

Lemma check_ffmpeg_cases w :
  check_ffmpeg child w =
  let ev := events w ++ [Spawn version_cmd] in
  match child version_cmd (files w) with
  | (Exited z _, fs) => (Ok z, World fs ev)
  | (NotFound, _) => (Ok false, World (files w) ev)
  end.
Proof.
  unfold check_ffmpeg, subprocess_run. unfold_monad. fold version_cmd.
  now destruct (child version_cmd (files w)) as [[[] out|] fs].
Qed.

Lemma get_video_duration_cases input_file w :
  get_video_duration child input_file w =
  let ev := events w ++ [Spawn (probe_cmd input_file)] in
  match child (probe_cmd input_file) (files w) with
  | (Exited true out, fs) => (Ok (Py.float (Py.str_strip out)), World fs ev)
  | (Exited false _, fs) => (Ok None, World fs ev)
  | (NotFound, _) => (Raise FileNotFoundError, World (files w) ev)
  end.
Proof.
  unfold get_video_duration, subprocess_run. unfold_monad. fold (probe_cmd input_file).
  destruct (child (probe_cmd input_file) (files w)) as [[[] out|] fs]; try reflexivity.
  unfold float_or_raise. now destruct (Py.float _).
Qed.

(** [main] by the way the availability check ends and by its mode. *)
Lemma main_cases args fs :
  main str_float child args (World fs []) =
  match child version_cmd fs with
  | (Exited true _, fs1) =>
      let w1 := World fs1 [Spawn version_cmd] in
      if list_info args then
        match child (probe_cmd (input args)) fs1 with
        | (Exited z out, fs2) =>
            match duration_message z out with
            | Some m =>
                (Raise (SystemExit 0),
                 World fs2 [Spawn version_cmd; Spawn (probe_cmd (input args));
                            Printed m])
            | None =>
                (Raise (ValueError IntegerFromNaN),
                 World fs2 [Spawn version_cmd; Spawn (probe_cmd (input args))])
            end
        | (NotFound, _) =>
            (Raise FileNotFoundError,
             World fs1 [Spawn version_cmd; Spawn (probe_cmd (input args))])
        end
      else
        match process_width (width args) w1 with
        | (Ok wd, w2) =>
            match validate_timestamps (start args) (end_ args) w2 with
            | (Ok _, w3) =>
                match video_to_gif str_float child (input args) (output args) (Some wd)
                        (start args) (end_ args) (fps args) w3 with
                | (Ok b, w4) => (Raise (SystemExit (if b then 0 else 1)), w4)
                | (Raise e, w4) => (Raise e, w4)
                end
            | (Raise e, w3) => (Raise e, w3)
            end
        | (Raise e, w2) => (Raise e, w2)
        end
  | (Exited false _, fs1) =>
      (Raise (SystemExit 1),
       World fs1 [Spawn version_cmd; Printed MsgFfmpegMissing; Printed MsgInstallHint])
  | (NotFound, _) =>
      (Raise (SystemExit 1),
       World fs [Spawn version_cmd; Printed MsgFfmpegMissing; Printed MsgInstallHint])
  end.
Proof.
  unfold main. unfold mbind at 1 2 3, M_bind at 1 2 3.
  rewrite check_ffmpeg_cases. simpl.
  destruct (child version_cmd fs) as [[[] o|] fs1]; simpl; try reflexivity.
  unfold mret at 1, M_ret at 1.
  destruct (list_info args).
  - unfold mbind, M_bind. rewrite get_video_duration_cases. simpl.
    destruct (child (probe_cmd (input args)) fs1) as [[[] out|] fs2]; simpl;
      try reflexivity.
    unfold duration_message.
    destruct (Py.float (Py.str_strip out)) as [d|];
      [destruct (truthy_float d); [destruct (is_finite d)|]|]; reflexivity.
  - unfold mbind, M_bind.
    destruct (process_width _ _) as [[wd|e] w2]; [|reflexivity].
    destruct (validate_timestamps _ _ _) as [[[]|e] w3]; [|reflexivity].
    now destruct (video_to_gif _ _ _ _ _ _ _ _ _) as [[[]|e] w4].
Qed.

End MoreRuns.

(** ** Validation *)

Section Validation.

Context (str_float : float -> string).
Context (child : oracle).

Lemma well_formed_accepted t :
  well_formed t = true -> exists x, timestamp_to_seconds_str t = Ok x.
Proof.
  unfold well_formed, timestamp_to_seconds_str, float_or_raise. intros H.
  destruct (Py.float t) as [x|]; [eauto|].
  apply andb_true_iff in H as [Hlen Hall].
  destruct (Py.split ":" t) as [|a [|b [|c [|d l]]]]; simpl in Hlen, Hall;
    try discriminate; unfold parses in Hall;
    repeat match goal with
           | |- context [Py.float ?p] => destruct (Py.float p); simpl in Hall
           end; try discriminate; eauto.
Qed.

Lemma raised_malformed t e : timestamp_to_seconds_str t = Raise e -> well_formed t = false.
Proof.
  intros H. destruct (well_formed t) eqn:E; [|reflexivity].
  apply well_formed_accepted in E as [x E]. congruence.
Qed.

Lemma process_width_outcome token w :
  (unknown_width token = false
   /\ exists wd m,
        process_width token w = (Ok wd, World (files w) (events w ++ [Printed m]))
        /\ validation_message m = false)
  \/ (unknown_width token = true
      /\ exists t,
           token = Some t
           /\ process_width token w
              = (Raise (SystemExit 1),
                 World (files w) (events w ++ [Printed (MsgInvalidWidth t)]))).
Proof.
  unfold process_width, unknown_width. unfold_monad.
  destruct token as [t|]; simpl; [|left; eauto].
  destruct (RECOMMENDED_WIDTHS !! Py.lower t) as [n|];
    [destruct (negb (String.eqb t "")); left; eauto|].
  destruct (Py.int t) as [n|]; destruct (negb (String.eqb t "")); eauto 7.
Qed.

(** The timestamp check of [main]: it is passed when each start or end
    that is not empty is well formed, and otherwise it prints the error
    the normalizer raised on one of them, and the hint, and exits with
    status 1. *)
Lemma validate_timestamps_cases start end_ w :
  (validate_timestamps start end_ w = (Ok tt, w)
   /\ forall t, start = Some t \/ end_ = Some t -> t = ""%string \/ well_formed t = true)
  \/ exists v u,
       validate_timestamps start end_ w
       = (Raise (SystemExit 1),
          World (files w) (events w ++ [Printed (MsgError v); Printed MsgTimestampHint]))
       /\ (start = Some u \/ end_ = Some u) /\ u <> ""%string
       /\ timestamp_to_seconds_str u = Raise (ValueError v).
Proof.
  assert (forall t, t <> ""%string ->
            (exists x, timestamp_to_seconds (Some t) = Ok (Some x) /\ well_formed t = true)
            \/ exists v, timestamp_to_seconds (Some t) = Raise (ValueError v)
                         /\ timestamp_to_seconds_str t = Raise (ValueError v)) as Hts.
  { intros t _. simpl. destruct (timestamp_to_seconds_str t) as [x|e] eqn:E.
    - left. eauto using accepted_well_formed.
    - right. apply timestamp_raises_ValueError in E as Hv. destruct Hv as [v ->]. eauto. }
  assert (forall t, truthy (Some t) = true -> t <> ""%string) as Hne.
  { intros t H ->. discriminate H. }
  assert (forall t, truthy (Some t) = false -> t = ""%string) as Hem.
  { intros t. simpl. rewrite negb_false_iff. apply String.eqb_eq. }
  unfold validate_timestamps. unfold_monad.
  destruct start as [s|], end_ as [e|].
  all: repeat match goal with
         | |- context [if truthy (Some ?t) then _ else _] =>
             let T := fresh "T" in
             destruct (truthy (Some t)) eqn:T;
             [apply Hne in T; destruct (Hts t T) as [(? & -> & ?)|(? & -> & ?)]
             |apply Hem in T; subst]
         end; simpl; unfold raise; rewrite <- ?app_assoc; simpl;
    try (left; split; [reflexivity|];
         intros t [[= <-]|[= <-]]; auto; fail);
    try (right; do 2 eexists; split; [reflexivity|]; eauto; fail).
Qed.

(** A conversion whose availability check passed, by its validation. *)
Lemma main_validation args fs fs1 o :
  list_info args = false ->
  child version_cmd fs = (Exited true o, fs1) ->
  let run := main str_float child args (World fs []) in
  (invalid_request args fs1
   /\ fst run = Raise (SystemExit 1)
   /\ files (snd run) = fs1
   /\ exists rest, events (snd run) = Spawn version_cmd :: rest
                   /\ spawned rest = [] /\ reports_validation_error rest = true)
  \/ (~ invalid_request args fs1
      /\ reports_validation_error (events (snd run)) = false).
Proof.
  intros Hli Hv. cbv zeta. rewrite main_cases, Hv, Hli. cbv beta iota zeta.
  destruct (process_width_outcome (width args) (World fs1 [Spawn version_cmd]))
    as [(Hwd & wd & m & -> & Hm)|(Hu & t & Ht & ->)].
  all: cbn [files events app].
  2:{ left. split; [right; left; exact Hu|]. simpl. repeat split.
      eexists. split; [reflexivity|]. simpl. auto. }
  destruct (validate_timestamps_cases (start args) (end_ args)
              (World fs1 [Spawn version_cmd; Printed m]))
    as [[-> Hpass]|(v & u & -> & Hu & Hne & Hraise)].
  2:{ left. split.
      - right; right; left. exists u. repeat split; try assumption.
        eapply raised_malformed, Hraise.
      - simpl. repeat split. eexists. split; [reflexivity|]. simpl.
        rewrite Hm. auto. }
  assert (input args ∈ fs1 ->
          (forall so eo, timestamp_to_seconds (start args) = Ok so ->
                         timestamp_to_seconds (end_ args) = Ok eo ->
                         spec_window so eo <> Rejected) ->
          ~ invalid_request args fs1) as Hvalid.
  { intros Hin Hwin [H|[H|[(t & Ht & Hnt & Hwf)|(so & eo & Hs & He & Hrej)]]].
    - contradiction.
    - congruence.
    - destruct (Hpass t Ht); congruence.
    - now apply (Hwin so eo). }
  rewrite video_to_gif_cases. simpl files.
  case_bool_decide as Hin.
  2:{ left. split; [now left|]. simpl. repeat split.
      eexists. split; [reflexivity|]. simpl. rewrite Hm. auto. }
  pose proof (build_cmd_spec str_float (input args) (start args) (end_ args)
                (World fs1 [Spawn version_cmd; Printed m])) as Hb.
  destruct (timestamp_to_seconds (start args)) as [so|e1] eqn:Es.
  2:{ destruct Hb as [v ->]. right. split; [|simpl; now rewrite Hm].
      apply Hvalid; [exact Hin | congruence]. }
  destruct (timestamp_to_seconds (end_ args)) as [eo|e2] eqn:Ee.
  2:{ destruct Hb as [v ->]. right. split; [|simpl; now rewrite Hm].
      apply Hvalid; [exact Hin | congruence]. }
  destruct (spec_window so eo) as [|off d] eqn:Ew; rewrite Hb.
  { left. split; [right; right; right; eauto|]. simpl. repeat split.
    eexists. split; [reflexivity|]. simpl. rewrite Hm. auto. }
  right. split.
  { apply Hvalid; [exact Hin|]. intros so' eo' [= <-] [= <-]. congruence. }
  destruct (run_passes_trace child
              (["ffmpeg"; "-i"; input args]%string ++ trim_arguments str_float off d)
              (Some wd) (fps args) (output_name (input args) (output args))
              (World fs1 [Spawn version_cmd; Printed m])) as (tr & Htr & Hrep & _).
  destruct (run_passes _ _ _ _ _ _) as [r w4]. simpl in Htr.
  assert (reports_validation_error (events w4) = false) as Hev.
  { rewrite Htr. simpl. now rewrite Hm. }
  now destruct r as [[]|e].
Qed.

End Validation.

(** ** The claims *)

Lemma recommended_widths_positive k n : RECOMMENDED_WIDTHS !! k = Some n -> 0 < n.
Proof.
  unfold RECOMMENDED_WIDTHS. intros H. apply elem_of_list_to_map_2 in H.
  repeat (apply elem_of_cons in H as [[= _ ->]|H]; [lia|]).
  now apply elem_of_nil in H.
Qed.

(** C1: after a conversion attempt that reaches palette generation the
    palette artifact is gone, whether the passes succeed or fail.  The
    code breaks this when the palette pass itself fails: it returns
    [False] without the clean-up the final pass has on both exits
    ([final_pass_cleans_up]), so a palette the failed pass wrote stays. *)
Theorem palette_survives_failed_generation :
  let run :=
    video_to_gif sample_str failing_palette_pass
      "in.mp4" None (Some 480) None None 10 sample_world in
  fst run = Ok false /\ ~ palette_removed (snd run).
Proof.
  cbv zeta. split; [vm_compute; reflexivity|].
  unfold palette_removed. intros H. apply H.
  apply (bool_decide_unpack _). vm_compute. exact I.
Qed.

(** C2 as stated fails: the availability check is a process, and [main]
    starts it before it validates anything.  Here the width ["abc"] is
    rejected after [ffmpeg -version] has run. *)
Lemma availability_check_precedes_validation :
  ~ validation_precedes_processes
      (events (snd (main sample_str working_encoder
                      (Args "in.mp4" None (Some "abc") None None 10 false)
                      sample_world))).
Proof.
  intros H.
  specialize (H [Spawn version_cmd] (MsgInvalidWidth "abc") []).
  discriminate H; reflexivity.
Qed.

(** C2, amended: in a conversion whose availability check has passed, a
    request is refused exactly when it is invalid (missing input, unknown
    width, malformed start or end, rejected window), and a refused
    request is reported and ends the run with exit status 1 before any
    encoder pass is started and with the files as the availability check
    left them: the check, which [main] starts first, is the only
    process. *)
Theorem validation_before_encoder_passes
    (str_float : float -> string) (child : oracle) (args : Namespace)
    (fs fs1 : gset string) (o : string) :
  list_info args = false ->
  child version_cmd fs = (Exited true o, fs1) ->
  let run := main str_float child args (World fs []) in
  (invalid_request args fs1 <-> reports_validation_error (events (snd run)) = true)
  /\ (invalid_request args fs1 ->
      fst run = Raise (SystemExit 1)
      /\ files (snd run) = fs1
      /\ exists rest,
           events (snd run) = Spawn version_cmd :: rest /\ spawned rest = []).
Proof.
  intros Hli Hv.
  destruct (main_validation str_float child args fs fs1 o Hli Hv)
    as [(Hinv & Hexit & Hfiles & rest & Hev & Hsp & Hrep)|(Hvalid & Hrep)];
    cbv zeta in *.
  - split.
    + split; [|auto]. intros _. rewrite Hev. exact Hrep.
    + intros _. eauto.
  - split; [|contradiction].
    split; [contradiction | congruence].
Qed.

Lemma validation_before_encoder_passes_witness :
  fst (main sample_str working_encoder
         (Args "in.mp4" None None (Some "10") (Some "5") 10 false) sample_world)
  = Raise (SystemExit 1).
Proof.
  destruct (validation_before_encoder_passes sample_str working_encoder
              (Args "in.mp4" None None (Some "10") (Some "5") 10 false)
              {["in.mp4"%string]} {["in.mp4"%string]} "" eq_refl eq_refl) as [_ H].
  apply H. right; right; right.
  exists (Some 10%float), (Some 5%float). vm_compute. auto.
Defined.

(** C3: the time window handed to the encoder is the one the
    specification derives.  With a start the offset is its seconds; with
    both, the duration is end minus start, and a duration [<= 0] is
    rejected before any pass is started; with an end only, the duration
    is its seconds.  From ["0:30"] to ["1:15"] the duration is 45, and
    from ["10"] to ["5"] the request is rejected. *)
Theorem time_window_derivation
    (str_float : float -> string)
    (child : list string -> gset string -> proc_result * gset string)
    (input_file : string) (output_file : option string) (width : option Z)
    (start end_ : option string) (fps : Z) (w : world)
    (so eo : option float) :
  timestamp_to_seconds start = Ok so ->
  timestamp_to_seconds end_ = Ok eo ->
  input_file ∈ files w ->
  match spec_window so eo with
  | Rejected =>
      video_to_gif str_float child input_file output_file width start end_ fps w
      = (Ok false, World (files w) (events w ++ [Printed MsgEndBeforeStart]))
  | Window offset duration =>
      let cmd := ["ffmpeg"; "-i"; input_file]%string
                 ++ trim_arguments str_float offset duration in
      build_cmd str_float input_file start end_ w = (Ok (Some cmd), w)
      /\ exists tr,
           events (snd (video_to_gif str_float child input_file output_file
                          width start end_ fps w))
           = events w ++ Printed MsgGeneratingPalette
                         :: Spawn (palette_cmd cmd width fps) :: tr
  end
  /\ (timestamp_to_seconds (Some "0:30"%string) = Ok (Some 30%float)
      /\ timestamp_to_seconds (Some "1:15"%string) = Ok (Some 75%float)
      /\ spec_window (Some 30%float) (Some 75%float)
         = Window (Some 30%float) (Some 45%float))
  /\ (timestamp_to_seconds (Some "10"%string) = Ok (Some 10%float)
      /\ timestamp_to_seconds (Some "5"%string) = Ok (Some 5%float)
      /\ spec_window (Some 10%float) (Some 5%float) = Rejected).
Proof.
  intros Hs He Hin. split; [|split; vm_compute; auto].
  pose proof (build_cmd_spec str_float input_file start end_ w) as Hb.
  rewrite Hs, He in Hb. rewrite video_to_gif_cases, bool_decide_true by assumption.
  destruct (spec_window so eo) as [|o d]; rewrite Hb; [reflexivity|].
  split; [reflexivity|]. apply run_passes_starts.
Qed.

Lemma time_window_derivation_witness :
  build_cmd sample_str "in.mp4" (Some "0:30"%string) (Some "1:15"%string) sample_world
  = (Ok (Some ["ffmpeg"; "-i"; "in.mp4"; "-ss"; "30.0"; "-t"; "45.0"]%string),
     sample_world).
Proof.
  pose proof (time_window_derivation sample_str working_encoder "in.mp4" None
                (Some 480) (Some "0:30"%string) (Some "1:15"%string) 10 sample_world
                (Some 30%float) (Some 75%float)) as H.
  destruct H as [H _].
  - vm_compute. reflexivity.
  - vm_compute. reflexivity.
  - unfold sample_world. simpl. now apply elem_of_singleton.
  - change (spec_window (Some 30%float) (Some 75%float))
      with (Window (Some 30%float) (Some 45%float)) in H.
    exact (proj1 H).
Defined.

(** C4: for every width and fps the two filter expressions are one base,
    the lanczos scale followed by the fps, extended by the palette
    generation for the palette pass and by the palette application on the
    second input stream for the final pass; these are the expressions of
    the commands the passes run. *)
Theorem filter_chains_share_base
    (child : list string -> gset string -> proc_result * gset string)
    (cmd : list string) (width : option Z) (fps : Z) (out : string) (w : world) :
  exists scale base,
    (scale = "scale=-1:-1:flags=lanczos"%string
     \/ exists n, width = Some n
                  /\ scale = ("scale=" +:+ Py.str_int n +:+ ":-1:flags=lanczos")%string)
    /\ base = (scale +:+ "," +:+ "fps=" +:+ Py.str_int fps)%string
    /\ palette_filters width fps = (base +:+ ",palettegen")%string
    /\ gif_filters width fps = (base +:+ "[x];[x][1:v]paletteuse")%string
    /\ let P := cmd ++ ["-vf"; base +:+ ",palettegen"; "-y"; "palette.png"]%string in
       let G := cmd ++ ["-i"; "palette.png"; "-lavfi";
                        base +:+ "[x];[x][1:v]paletteuse"; "-y"; out]%string in
       exists tr,
         events (snd (run_passes child cmd width fps out w)) = events w ++ tr
         /\ (spawned tr = [P] \/ spawned tr = [P; G]).
Proof.
  destruct (run_passes_trace child cmd width fps out w) as (tr & Htr & _ & Hsp).
  assert (forall scale,
            filters width fps = [scale; ("fps=" +:+ Py.str_int fps)%string] ->
            palette_filters width fps
            = ((scale +:+ "," +:+ "fps=" +:+ Py.str_int fps) +:+ ",palettegen")%string
            /\ gif_filters width fps
               = ((scale +:+ "," +:+ "fps=" +:+ Py.str_int fps)
                  +:+ "[x];[x][1:v]paletteuse")%string) as Hf.
  { intros scale E. unfold palette_filters, gif_filters. now rewrite E. }
  assert (exists scale,
            (scale = "scale=-1:-1:flags=lanczos"%string
             \/ exists n, width = Some n
                  /\ scale = ("scale=" +:+ Py.str_int n +:+ ":-1:flags=lanczos")%string)
            /\ filters width fps = [scale; ("fps=" +:+ Py.str_int fps)%string])
    as (scale & Hscale & E).
  { unfold filters. destruct width as [n|]; [destruct (Z.eqb n 0)|]; eauto 6. }
  destruct (Hf scale E) as [Hp Hg].
  exists scale, (scale +:+ "," +:+ "fps=" +:+ Py.str_int fps)%string.
  repeat split; try assumption.
  exists tr. split; [exact Htr|].
  unfold palette_cmd, gif_cmd in Hsp. now rewrite Hp, Hg in Hsp.
Qed.

(** C5: a string that parses as a number is normalized to [float(s)]; a
    pair [M:S] of numbers to [M*60 + S] and a triple [H:M:S] to
    [H*3600 + M*60 + S]. *)
Theorem normalizer_values (h m s : string) (fh fm fs : float) :
  Py.float h = Some fh -> Py.float m = Some fm -> Py.float s = Some fs ->
  timestamp_to_seconds (Some s) = Ok (Some fs)
  /\ timestamp_to_seconds (Some (m +:+ ":" +:+ s)) = Ok (Some (fm * 60 + fs)%float)
  /\ timestamp_to_seconds (Some (h +:+ ":" +:+ m +:+ ":" +:+ s))
     = Ok (Some (fh * 3600 + fm * 60 + fs)%float).
Proof.
  intros Hh Hm Hs. unfold timestamp_to_seconds.
  rewrite (timestamp_number _ _ Hs), (timestamp_pair _ _ _ _ Hm Hs),
    (timestamp_triple _ _ _ _ _ _ Hh Hm Hs).
  auto.
Qed.

Lemma normalizer_values_witness :
  timestamp_to_seconds (Some "7.5"%string) = Ok (Some 7.5%float)
  /\ timestamp_to_seconds (Some "30:7.5"%string) = Ok (Some 1807.5%float)
  /\ timestamp_to_seconds (Some "2:30:7.5"%string) = Ok (Some 9007.5%float).
Proof.
  apply (normalizer_values "2" "30" "7.5" 2%float 30%float 7.5%float);
    vm_compute; reflexivity.
Defined.

(** C6 as stated fails: the normalizer accepts ["-5"] and returns -5. *)
Lemma negative_seconds_returned : ~ always_nonneg "-5".
Proof.
  intros H. specialize (H (-5)%float). discriminate H. vm_compute. reflexivity.
Qed.

(** C6, amended: the normalizer checks no sign; the seconds it returns
    are non-negative whenever each part it converts (the expression
    itself when it is a number, its colon-separated segments otherwise)
    is a non-negative number. *)
Theorem nonneg_parts_nonneg_seconds (t : string) (x : float) :
  timestamp_to_seconds (Some t) = Ok (Some x) ->
  forallb nonneg_component (components t) = true ->
  nonneg x = true.
Proof.
  unfold timestamp_to_seconds.
  destruct (timestamp_to_seconds_str t) as [y|] eqn:E; [|discriminate].
  intros [= <-]. now apply nonneg_components_result.
Qed.

Lemma nonneg_parts_nonneg_seconds_witness :
  timestamp_to_seconds (Some "1:30:00"%string) = Ok (Some 5400%float)
  /\ nonneg 5400%float = true.
Proof.
  split; [vm_compute; reflexivity|].
  apply (nonneg_parts_nonneg_seconds "1:30:00" 5400%float); vm_compute; reflexivity.
Defined.

(** C7 as stated fails: the token ["-5"] is no preset, parses as an
    integer and is returned, and it is not positive. *)
Lemma negative_width_accepted :
  ~ positive_or_invalid (fst (process_width (Some "-5"%string) sample_world)).
Proof. vm_compute. intros H. discriminate H. Qed.

(** C7, amended: width resolution fails with the invalid-width error or
    returns an integer.  A token that matches a preset, whatever its
    case, gives the preset's width, which is positive; any other token
    gives the integer it parses to, of either sign, or fails; no token
    gives the medium preset, 480. *)
Theorem width_resolution (token : option string) (w : world) :
  let r := fst (process_width token w) in
  fst (process_width (Some "Medium"%string) w) = Ok 480
  /\ fst (process_width (Some "-5"%string) w) = Ok (-5)
  /\ match token with
  | Some t =>
      if truthy token then
        match RECOMMENDED_WIDTHS !! Py.lower t with
        | Some n => r = Ok n /\ 0 < n
        | None =>
            match Py.int t with
            | Some n => r = Ok n
            | None =>
                process_width token w
                = (Raise (SystemExit 1),
                   World (files w) (events w ++ [Printed (MsgInvalidWidth t)]))
            end
        end
      else r = Ok 480
  | None => r = Ok 480
  end.
Proof.
  cbv zeta. split; [vm_compute; reflexivity|]. split; [vm_compute; reflexivity|].
  unfold process_width. unfold_monad.
  destruct token as [t|]; simpl; [|reflexivity].
  destruct (negb (String.eqb t "")); [|reflexivity].
  destruct (RECOMMENDED_WIDTHS !! Py.lower t) as [n|] eqn:E.
  - split; [reflexivity|]. eapply recommended_widths_positive, E.
  - now destruct (Py.int t).
Qed.

(** C8 as stated fails in its second half: ["1:2:3:4"] is refused only
    after [ffmpeg -version] has been started. *)
Lemma timestamp_refused_after_availability_check :
  ~ validation_precedes_processes
      (events (snd (main sample_str working_encoder
                      (Args "in.mp4" None None (Some "1:2:3:4") None 10 false)
                      sample_world))).
Proof.
  intros H.
  specialize (H [Spawn version_cmd; Printed (MsgDefaultWidth 480)]
                (MsgError (InvalidTimestampFormat "1:2:3:4")) [Printed MsgTimestampHint]).
  discriminate H; reflexivity.
Qed.

(** C8, amended: a malformed time expression (a segment count other than
    1, 2 or 3, or a segment that is no number) makes the normalizer raise
    [ValueError].  A conversion given one that is not empty as start or
    end, once the availability check, which [main] starts first, has
    passed, ends with exit status 1 without starting another process and
    with the files as the check left them; unless the width was refused
    before, it has printed the [ValueError] the normalizer raised on the
    start or the end, and the hint. *)
Theorem malformed_timestamp_refused
    (str_float : float -> string) (child : oracle) (args : Namespace)
    (fs : gset string) (t : string) :
  well_formed t = false ->
  (exists v, timestamp_to_seconds (Some t) = Raise (ValueError v))
  /\ (forall o fs1,
        t <> ""%string ->
        start args = Some t \/ end_ args = Some t ->
        list_info args = false ->
        child version_cmd fs = (Exited true o, fs1) ->
        let run := main str_float child args (World fs []) in
        fst run = Raise (SystemExit 1)
        /\ files (snd run) = fs1
        /\ spawned (events (snd run)) = [version_cmd]
        /\ (unknown_width (width args) = false ->
            exists wm v u,
              events (snd run)
              = [Spawn version_cmd; Printed wm; Printed (MsgError v);
                 Printed MsgTimestampHint]
              /\ (start args = Some u \/ end_ args = Some u)
              /\ timestamp_to_seconds_str u = Raise (ValueError v))).
Proof.
  intros Hbad. split.
  { apply malformed_raises in Hbad as [v Hv]. exists v. simpl. now rewrite Hv. }
  intros o fs1 Hne Harg Hli Hv. cbv zeta.
  rewrite main_cases, Hv, Hli. cbv beta iota zeta.
  destruct (process_width_outcome (width args) (World fs1 [Spawn version_cmd]))
    as [(Hwd & wd & m & -> & Hm)|(Hu & w & Hw & ->)].
  all: cbn [files events app].
  2:{ simpl. repeat split. congruence. }
  destruct (validate_timestamps_cases (start args) (end_ args)
              (World fs1 [Spawn version_cmd; Printed m]))
    as [[_ Hpass]|(v & u & -> & Hu & _ & Hraise)].
  { destruct (Hpass t Harg); congruence. }
  simpl. repeat split. intros _. eauto 6.
Qed.

Lemma malformed_timestamp_refused_witness :
  fst (main sample_str working_encoder
         (Args "in.mp4" None None None (Some "1:2:3:4"%string) 10 false) sample_world)
  = Raise (SystemExit 1).
Proof.
  destruct (malformed_timestamp_refused sample_str working_encoder
              (Args "in.mp4" None None None (Some "1:2:3:4"%string) 10 false)
              {["in.mp4"%string]} "1:2:3:4") as [_ H].
  - vm_compute. reflexivity.
  - apply (H "" {["in.mp4"%string]}).
    + discriminate.
    + right. reflexivity.
    + reflexivity.
    + reflexivity.
Defined.

(** Both passes are started with the same input and the same trim
    arguments: each command is the one base command, the input followed
    by the offset and duration of the window, extended by the arguments
    of its pass. *)
Lemma passes_share_base_command
    (str_float : float -> string)
    (child : list string -> gset string -> proc_result * gset string)
    (input_file : string) (output_file : option string) (width : option Z)
    (start end_ : option string) (fps : Z) (w : world) :
  exists tr,
    events (snd (video_to_gif str_float child input_file output_file width
                   start end_ fps w)) = events w ++ tr
    /\ (spawned tr = []
        \/ exists so eo offset duration,
             timestamp_to_seconds start = Ok so
             /\ timestamp_to_seconds end_ = Ok eo
             /\ spec_window so eo = Window offset duration
             /\ let cmd := ["ffmpeg"; "-i"; input_file]%string
                           ++ trim_arguments str_float offset duration in
                let P := cmd ++ ["-vf"; palette_filters width fps;
                                 "-y"; "palette.png"]%string in
                let G := cmd ++ ["-i"; "palette.png"; "-lavfi"; gif_filters width fps;
                                 "-y"; output_name input_file output_file]%string in
                spawned tr = [P] \/ spawned tr = [P; G]).
Proof.
  destruct (video_to_gif_trace str_float child input_file output_file width
              start end_ fps w) as (tr & Htr & Hcases).
  exists tr. split; [exact Htr|].
  destruct Hcases as [H|(_ & so & eo & o & d & Hs & He & Hw & H)]; [now left|].
  right. exists so, eo, o, d. auto.
Qed.

(** C9: both commands carry the same input and the same trim arguments,
    but the passes do not process the same window of the source.  In the
    palette command the trim arguments are followed by the output, so
    ffmpeg applies them to what that pass writes; in the final command
    they are followed by [-i palette.png], so ffmpeg applies them to the
    palette image, and no window is applied to the source or to the GIF
    written from it. *)
Theorem final_pass_trims_the_palette
    (str_float : float -> string) (input_file : string)
    (offset duration : option float) (width : option Z) (fps : Z) (out : string) :
  let cmd := ["ffmpeg"; "-i"; input_file]%string
             ++ trim_arguments str_float offset duration in
  let trim := trim_options str_float offset duration in
  ffmpeg_groups (tail (palette_cmd cmd width fps)) []
  = [Group (InputFile input_file) [];
     Group (OutputFile "palette.png")
           (trim ++ [("-vf"%string, palette_filters width fps)])]
  /\ take 2 (ffmpeg_groups (tail (gif_cmd cmd width fps out)) [])
     = [Group (InputFile input_file) []; Group (InputFile "palette.png") trim]
  /\ (let run := video_to_gif sample_str working_encoder "in.mp4" None (Some 480)
                   (Some "10"%string) (Some "20"%string) 10 sample_world in
      map trimmed_files (spawned (events (snd run)))
      = [[(OutputFile "palette.png", [("-ss", "10.0"); ("-t", "10.0")])];
         [(InputFile "palette.png", [("-ss", "10.0"); ("-t", "10.0")])]]%string).
Proof.
  cbv zeta. split; [|split].
  - destruct offset, duration; reflexivity.
  - destruct offset, duration; reflexivity.
  - vm_compute. reflexivity.
Qed.

(** C10: the parts of a colon expression are not range-checked: whatever
    numbers the minutes and seconds are, above 59 or negative, they are
    accepted and folded in as they are; ["1:90"] is 150 and ["1:-30"] is
    30. *)
Theorem colon_parts_not_range_checked (h m s : string) (fh fm fs : float) :
  Py.float h = Some fh -> Py.float m = Some fm -> Py.float s = Some fs ->
  timestamp_to_seconds_str (m +:+ ":" +:+ s) = Ok (fm * 60 + fs)%float
  /\ timestamp_to_seconds_str (h +:+ ":" +:+ m +:+ ":" +:+ s)
     = Ok (fh * 3600 + fm * 60 + fs)%float
  /\ timestamp_to_seconds (Some "1:90"%string) = Ok (Some 150%float)
  /\ timestamp_to_seconds (Some "1:-30"%string) = Ok (Some 30%float)
  /\ timestamp_to_seconds (Some "0:75:-15"%string) = Ok (Some 4485%float).
Proof.
  intros Hh Hm Hs.
  split; [now apply timestamp_pair|]. split; [now apply timestamp_triple|].
  vm_compute. auto.
Qed.

Lemma colon_parts_not_range_checked_witness :
  timestamp_to_seconds_str "-90:61" = Ok (-5339)%float
  /\ timestamp_to_seconds_str "0:-90:61" = Ok (-5339)%float.
Proof.
  destruct (colon_parts_not_range_checked "0" "-90" "61" 0%float (-90)%float 61%float)
    as (H1 & H2 & _); try (vm_compute; reflexivity).
  split; [exact H1 | exact H2].
Defined.

(** ** Further properties of the program *)


Section Phases.

Context (str_float : float -> string).
Context (child : list string -> gset string -> proc_result * gset string).

(** The phases of [video_to_gif]: the input is missing, a timestamp is
    refused, the window is rejected, or the passes run on the command of
    the window. *)
Lemma video_to_gif_phases input_file output_file width start end_ fps w :
  let run := video_to_gif str_float child input_file output_file width start end_ fps w in
  ((input_file ∉ files w)
   /\ run = (Ok false, World (files w) (events w ++ [Printed (MsgInputNotFound input_file)])))
  \/ ((input_file ∈ files w)
      /\ ((exists v, run = (Raise (ValueError v), w))
          \/ run = (Ok false, World (files w) (events w ++ [Printed MsgEndBeforeStart]))
          \/ exists so eo o d,
               timestamp_to_seconds start = Ok so
               /\ timestamp_to_seconds end_ = Ok eo
               /\ spec_window so eo = Window o d
               /\ run = run_passes child
                          (["ffmpeg"; "-i"; input_file]%string ++ trim_arguments str_float o d)
                          width fps (output_name input_file output_file) w)).
Proof.
  cbv zeta. rewrite video_to_gif_cases. case_bool_decide; [right|left; auto].
  split; [assumption|].
  pose proof (build_cmd_spec str_float input_file start end_ w) as Hb.
  destruct (timestamp_to_seconds start) as [so|] eqn:Es.
  2:{ destruct Hb as [v ->]. eauto. }
  destruct (timestamp_to_seconds end_) as [eo|] eqn:Ee.
  2:{ destruct Hb as [v ->]. eauto. }
  destruct (spec_window so eo) as [|o d] eqn:Ew; rewrite Hb; [auto|].
  right; right. exists so, eo, o, d. auto.
Qed.

(** The results of the two passes, with what each leaves. *)
Lemma run_passes_results cmd width fps out w :
  let P := palette_cmd cmd width fps in
  let G := gif_cmd cmd width fps out in
  let run := run_passes child cmd width fps out w in
  exists tr,
    events (snd run) = events w ++ tr
    /\ ((fst run = Ok true
         /\ spawned tr = [P; G]
         /\ reports_error tr = false
         /\ last tr = Some (Printed (MsgCreated out))
         /\ out ∈ files (snd run) /\ palette_removed (snd run))
        \/ (fst run = Ok false
            /\ reports_error tr = true
            /\ (spawned tr = [P]
                \/ (spawned tr = [P; G] /\ palette_removed (snd run))))
        \/ (fst run = Raise FileNotFoundError
            /\ reports_error tr = false
            /\ (spawned tr = [P] \/ spawned tr = [P; G]))).
Proof.
  cbv zeta. pose proof (run_passes_cases child cmd width fps out w) as H.
  cbv zeta in H. rewrite H. clear H. unfold palette_removed.
  destruct (child (palette_cmd _ _ _) _) as [[[] o1|] fs1]; simpl.
  - destruct (child (gif_cmd _ _ _ _) _) as [[[] o2|] fs2]; simpl.
    + case_bool_decide as Hout; simpl; rewrite <- !app_assoc; eexists;
        (split; [reflexivity|]); simpl.
      * left. repeat split; try reflexivity; try assumption.
        apply not_elem_of_difference; right; now apply elem_of_singleton.
      * right; right. auto.
    + rewrite <- !app_assoc; eexists; (split; [reflexivity|]); simpl.
      right; left. repeat split. right. split; [reflexivity|].
      apply not_elem_of_difference; right; now apply elem_of_singleton.
    + rewrite <- !app_assoc; eexists; (split; [reflexivity|]); simpl.
      right; right. auto.
  - rewrite <- !app_assoc; eexists; (split; [reflexivity|]); simpl.
    right; left. auto.
  - eexists; (split; [reflexivity|]); simpl. right; right. auto.
Qed.

End Phases.

(** X1: a run of [video_to_gif] that starts no process leaves the file
    system as it found it. *)
Theorem no_pass_no_side_effect
    (str_float : float -> string) (child : oracle)
    (input_file : string) (output_file : option string) (width : option Z)
    (start end_ : option string) (fps : Z) (w : world) :
  let run := video_to_gif str_float child input_file output_file width start end_ fps w in
  spawned (events (snd run)) = spawned (events w) ->
  files (snd run) = files w.
Proof.
  cbv zeta.
  destruct (video_to_gif_phases str_float child input_file output_file width
              start end_ fps w)
    as [[_ ->]|[_ [[v ->]|[->|(so & eo & o & d & _ & _ & _ & ->)]]]];
    try reflexivity.
  destruct (run_passes_results child
              (["ffmpeg"; "-i"; input_file]%string ++ trim_arguments str_float o d)
              width fps (output_name input_file output_file) w)
    as (tr & Htr & Hcases).
  rewrite Htr, spawned_app. intros Hsp.
  assert (spawned tr = []) as Hnil.
  { apply (f_equal (@length _)) in Hsp. rewrite length_app in Hsp.
    destruct (spawned tr); [reflexivity | simpl in Hsp; lia]. }
  destruct Hcases as [(_ & H & _)|[(_ & _ & [H|[H _]])|(_ & _ & [H|H])]];
    rewrite Hnil in H; discriminate.
Qed.

Lemma no_pass_no_side_effect_witness :
  files (snd (video_to_gif sample_str working_encoder "in.mp4" None (Some 480)
                (Some "10"%string) (Some "5"%string) 10 sample_world))
  = files sample_world.
Proof.
  apply (no_pass_no_side_effect sample_str working_encoder "in.mp4" None (Some 480)
           (Some "10"%string) (Some "5"%string) 10 sample_world).
  vm_compute. reflexivity.
Defined.

(** X2: [video_to_gif] returns [True] only when both passes ran, nothing
    was reported as an error, the last line printed announces the output,
    the output exists and the palette is gone. *)
Theorem success_postcondition
    (str_float : float -> string) (child : oracle)
    (input_file : string) (output_file : option string) (width : option Z)
    (start end_ : option string) (fps : Z) (w : world) :
  let run := video_to_gif str_float child input_file output_file width start end_ fps w in
  let out := output_name input_file output_file in
  fst run = Ok true ->
  input_file ∈ files w
  /\ out ∈ files (snd run)
  /\ palette_removed (snd run)
  /\ out <> "palette.png"%string
  /\ exists tr,
       events (snd run) = events w ++ tr
       /\ length (spawned tr) = 2%nat
       /\ reports_error tr = false
       /\ last tr = Some (Printed (MsgCreated out)).
Proof.
  cbv zeta.
  destruct (video_to_gif_phases str_float child input_file output_file width
              start end_ fps w)
    as [[_ ->]|[Hin [[v ->]|[->|(so & eo & o & d & _ & _ & _ & ->)]]]];
    try discriminate.
  destruct (run_passes_results child
              (["ffmpeg"; "-i"; input_file]%string ++ trim_arguments str_float o d)
              width fps (output_name input_file output_file) w)
    as (tr & Htr & Hcases).
  intros Hok.
  destruct Hcases as [(_ & Hsp & Hrep & Hlast & Hout & Hpal)|[(H & _)|(H & _)]];
    [|congruence|congruence].
  repeat split; try assumption.
  - intros E. apply Hpal. unfold palette_removed. rewrite <- E at 1. exact Hout.
  - exists tr. rewrite Hsp. auto.
Qed.

Lemma success_postcondition_witness :
  "in.gif"%string
  ∈ files (snd (video_to_gif sample_str working_encoder "in.mp4" None (Some 480)
                  None None 10 sample_world)).
Proof.
  apply (success_postcondition sample_str working_encoder "in.mp4" None (Some 480)
           None None 10 sample_world).
  vm_compute. reflexivity.
Defined.

(** X3: whenever [video_to_gif] returns, with [True] or [False], after it
    started the final pass, the palette is gone. *)
Theorem returned_after_final_pass_without_palette
    (str_float : float -> string) (child : oracle)
    (input_file : string) (output_file : option string) (width : option Z)
    (start end_ : option string) (fps : Z) (w : world) (b : bool) :
  let run := video_to_gif str_float child input_file output_file width start end_ fps w in
  fst run = Ok b ->
  length (spawned (events (snd run))) = (length (spawned (events w)) + 2)%nat ->
  palette_removed (snd run).
Proof.
  cbv zeta.
  destruct (video_to_gif_phases str_float child input_file output_file width
              start end_ fps w)
    as [[_ ->]|[Hin [[v ->]|[->|(so & eo & o & d & _ & _ & _ & ->)]]]].
  1-3: simpl; rewrite ?spawned_app, ?length_app; simpl; intros; try lia;
    discriminate.
  destruct (run_passes_results child
              (["ffmpeg"; "-i"; input_file]%string ++ trim_arguments str_float o d)
              width fps (output_name input_file output_file) w)
    as (tr & Htr & Hcases).
  rewrite Htr, spawned_app, length_app. intros Hok Hlen.
  destruct Hcases as [(_ & _ & _ & _ & _ & Hpal)|[(_ & _ & [H|[_ Hpal]])|(H & _)]];
    try assumption.
  - rewrite H in Hlen. simpl in Hlen. lia.
  - congruence.
Qed.

Lemma returned_after_final_pass_without_palette_witness :
  palette_removed
    (snd (video_to_gif sample_str working_encoder "in.mp4" None (Some 480)
            None None 10 (World {["in.mp4"; "palette.png"]}%string []))).
Proof.
  apply (returned_after_final_pass_without_palette sample_str working_encoder
           "in.mp4" None (Some 480) None None 10
           (World {["in.mp4"; "palette.png"]}%string []) true);
    vm_compute; reflexivity.
Defined.

(** X4: when the palette pass does not exit with status zero the final
    pass is never started: the palette command is the only process, and
    the function returns [False] or lets [FileNotFoundError] escape. *)
Theorem failed_palette_pass_stops
    (child : oracle) (cmd : list string) (width : option Z) (fps : Z)
    (out : string) (w : world) :
  let run := run_passes child cmd width fps out w in
  (forall o, fst (child (palette_cmd cmd width fps) (files w)) <> Exited true o) ->
  spawned (events (snd run)) = spawned (events w) ++ [palette_cmd cmd width fps]
  /\ (fst run = Ok false \/ fst run = Raise FileNotFoundError).
Proof.
  cbv zeta. intros Hfail.
  pose proof (run_passes_cases child cmd width fps out w) as H.
  cbv zeta in H. rewrite H. clear H.
  destruct (child (palette_cmd _ _ _) _) as [[[] o1|] fs1]; simpl in *.
  - now destruct (Hfail o1).
  - rewrite !spawned_app. simpl. rewrite app_nil_r. auto.
  - rewrite !spawned_app. simpl. auto.
Qed.

Lemma failed_palette_pass_stops_witness :
  spawned (events (snd (run_passes failing_palette_pass ["ffmpeg"; "-i"; "in.mp4"]%string
                          (Some 480) 10 "in.gif" sample_world)))
  = [palette_cmd ["ffmpeg"; "-i"; "in.mp4"]%string (Some 480) 10].
Proof.
  apply (failed_palette_pass_stops failing_palette_pass ["ffmpeg"; "-i"; "in.mp4"]%string
           (Some 480) 10 "in.gif" sample_world).
  intros o. vm_compute. discriminate.
Defined.

Lemma reports_error_app a b :
  reports_error (a ++ b) = reports_error a || reports_error b.
Proof. unfold reports_error. apply existsb_app. Qed.

Lemma duration_message_no_error z out m :
  duration_message z out = Some m -> error_message m = false.
Proof.
  unfold duration_message.
  destruct z; [|now intros [= <-]].
  destruct (Py.float _) as [d|]; [|now intros [= <-]].
  destruct (truthy_float d); [|now intros [= <-]].
  destruct (is_finite d); [now intros [= <-] | discriminate].
Qed.

Section Endings.

Context (str_float : float -> string).
Context (child : oracle).

Lemma process_width_message token w :
  exists r m,
    process_width token w = (r, World (files w) (events w ++ [Printed m]))
    /\ match r with
       | Ok _ => error_message m = false
       | Raise e => e = SystemExit 1 /\ error_message m = true
       end.
Proof.
  unfold process_width. unfold_monad.
  destruct token as [t|]; simpl.
  - destruct (negb (String.eqb t "")).
    + destruct (RECOMMENDED_WIDTHS !! Py.lower t).
      * do 2 eexists. split; [reflexivity|]. reflexivity.
      * destruct (Py.int t); do 2 eexists; (split; [reflexivity|]); simpl; auto.
    + do 2 eexists. split; [reflexivity|]. reflexivity.
  - do 2 eexists. split; [reflexivity|]. reflexivity.
Qed.

(** How [video_to_gif] ends, and whether it printed an error. *)
Lemma video_to_gif_results input_file output_file width start end_ fps w :
  let run := video_to_gif str_float child input_file output_file width start end_ fps w in
  exists tr,
    events (snd run) = events w ++ tr
    /\ ((fst run = Ok true /\ reports_error tr = false)
        \/ (fst run = Ok false /\ reports_error tr = true)
        \/ ((exists v, fst run = Raise (ValueError v)) /\ reports_error tr = false)
        \/ (fst run = Raise FileNotFoundError /\ reports_error tr = false)).
Proof.
  cbv zeta.
  destruct (video_to_gif_phases str_float child input_file output_file width
              start end_ fps w)
    as [[_ ->]|[Hin [[v ->]|[->|(so & eo & o & d & _ & _ & _ & ->)]]]].
  - eexists. split; [reflexivity|]. simpl. auto.
  - exists []. split; [simpl; now rewrite app_nil_r|]. simpl. eauto 6.
  - eexists. split; [reflexivity|]. simpl. auto.
  - destruct (run_passes_results child
                (["ffmpeg"; "-i"; input_file]%string ++ trim_arguments str_float o d)
                width fps (output_name input_file output_file) w)
      as (tr & Htr & Hcases).
    exists tr. split; [exact Htr|].
    destruct Hcases as [(H & _ & Hrep & _)|[(H & Hrep & _)|(H & Hrep & _)]]; auto.
Qed.

(** How [main] ends, and whether it printed an error. *)
Lemma main_results args fs :
  let run := main str_float child args (World fs []) in
  exists e,
    fst run = Raise e
    /\ ((e = SystemExit 0 /\ reports_error (events (snd run)) = false)
        \/ (e = SystemExit 1 /\ reports_error (events (snd run)) = true)
        \/ ((exists v, e = ValueError v) /\ reports_error (events (snd run)) = false)
        \/ (e = FileNotFoundError /\ reports_error (events (snd run)) = false)).
Proof.
  cbv zeta. rewrite main_cases.
  destruct (child version_cmd fs) as [[[] o|] fs1]; simpl.
  2,3: eexists; split; [reflexivity|]; simpl; auto.
  destruct (list_info args).
  { destruct (child (probe_cmd (input args)) fs1) as [[z out|] fs2]; simpl.
    - destruct (duration_message z out) as [m|] eqn:Em; simpl.
      + eexists. split; [reflexivity|]. left. split; [reflexivity|].
        simpl. now rewrite (duration_message_no_error _ _ _ Em).
      + eexists. split; [reflexivity|]. right; right; left. eauto.
    - eexists. split; [reflexivity|]. auto. }
  destruct (process_width_message (width args) (World fs1 [Spawn version_cmd]))
    as (r & m & -> & Hm). simpl.
  destruct r as [wd|e].
  2:{ destruct Hm as [-> Hm]. eexists. split; [reflexivity|]. simpl.
      rewrite Hm. auto. }
  destruct (validate_timestamps_run (start args) (end_ args)
              (World fs1 [Spawn version_cmd; Printed m])) as [->|[v ->]].
  2:{ eexists. split; [reflexivity|]. simpl. rewrite Hm. auto. }
  destruct (video_to_gif_results (input args) (output args) (Some wd) (start args)
              (end_ args) (fps args) (World fs1 [Spawn version_cmd; Printed m]))
    as (tr & Htr & Hcases).
  destruct (video_to_gif _ _ _ _ _ _ _ _ _) as [r w4]. simpl in Htr, Hcases.
  assert (reports_error (events w4) = reports_error tr) as Hrep.
  { rewrite Htr. simpl. now rewrite Hm. }
  destruct Hcases as [[-> H]|[[-> H]|[[[v ->] H]|[-> H]]]];
    (eexists; split; [reflexivity|]); simpl; rewrite Hrep, H; eauto 7.
Qed.

End Endings.

(** X5: [main] never returns normally and never lets a
    [CalledProcessError] escape: each child process that fails is
    handled where it is started.  When [main] ends by [sys.exit], the
    status is 0 or 1. *)
Theorem main_endings
    (str_float : float -> string) (child : oracle) (args : Namespace)
    (fs : gset string) :
  let r := fst (main str_float child args (World fs [])) in
  (forall u, r <> Ok u)
  /\ (forall cmd, r <> Raise (CalledProcessError cmd))
  /\ (forall c, r = Raise (SystemExit c) -> c = 0 \/ c = 1).
Proof.
  cbv zeta.
  destruct (main_results str_float child args fs) as (e & -> & Hcases).
  destruct Hcases as [[-> _]|[[-> _]|[[[v ->] _]|[-> _]]]];
    repeat split; try discriminate; intros c [= <-]; auto.
Qed.

(** X6: a run of [main] that has printed one of the error lines ends
    with exit status 1, and [main] calls [sys.exit(1)] only after it has
    printed one.  The other runs with status 1 end with an uncaught
    exception, as with an empty start, and have printed none. *)
Theorem error_line_and_exit_status
    (str_float : float -> string) (child : oracle) (args : Namespace)
    (fs : gset string) :
  let run := main str_float child args (World fs []) in
  (reports_error (events (snd run)) = true -> exit_status (fst run) = 1)
  /\ (fst run = Raise (SystemExit 1) -> reports_error (events (snd run)) = true)
  /\ (exit_status (fst run) = 1 -> reports_error (events (snd run)) = false ->
      exists e, fst run = Raise e /\ forall c, e <> SystemExit c).
Proof.
  cbv zeta.
  destruct (main_results str_float child args fs) as (e & He & Hcases).
  cbv zeta in He, Hcases. rewrite He.
  destruct Hcases as [[-> H]|[[-> H]|[[[v ->] H]|[-> H]]]]; rewrite H; simpl;
    repeat split; try discriminate; try reflexivity; intros; eauto;
    eexists; (split; [reflexivity|]); discriminate.
Qed.

(** X7: with [--list-info] nothing but the input matters: two requests
    for the same input run alike whatever their output, width, start,
    end and fps, valid or not. *)
Theorem list_info_looks_at_input_only
    (str_float : float -> string) (child : oracle) (a b : Namespace)
    (fs : gset string) :
  list_info a = true -> list_info b = true -> input a = input b ->
  main str_float child a (World fs []) = main str_float child b (World fs []).
Proof.
  intros Ha Hb Hin. rewrite !main_cases, Ha, Hb, Hin. reflexivity.
Qed.

Lemma list_info_looks_at_input_only_witness :
  main sample_str working_encoder
    (Args "in.mp4" None (Some "abc") (Some "1:2:3:4") (Some "x") 0 true) sample_world
  = main sample_str working_encoder
      (Args "in.mp4" (Some "out.gif") None None None 10 true) sample_world.
Proof.
  apply (list_info_looks_at_input_only sample_str working_encoder
           (Args "in.mp4" None (Some "abc") (Some "1:2:3:4") (Some "x") 0 true)
           (Args "in.mp4" (Some "out.gif") None None None 10 true)
           {["in.mp4"%string]}); reflexivity.
Defined.

(** X8: with [--list-info], once the availability check has passed and
    the probe has exited, with whatever status, and written no number
    that is infinite or NaN (line 234 renders finite durations only),
    the run ends with exit status 0 after these two processes and one
    printed line.  The line gives the duration only if the probe exited
    with status zero and its output, stripped, is a number other than
    zero; in every other case, a duration of zero included, it says that
    the duration could not be determined. *)
Theorem list_info_exits_zero
    (str_float : float -> string) (child : oracle) (args : Namespace)
    (fs fs1 fs2 : gset string) (o out : string) (z : bool) :
  list_info args = true ->
  child version_cmd fs = (Exited true o, fs1) ->
  child (probe_cmd (input args)) fs1 = (Exited z out, fs2) ->
  (forall d, Py.float (Py.str_strip out) = Some d -> is_finite d = true) ->
  exists m,
    main str_float child args (World fs [])
    = (Raise (SystemExit 0),
       World fs2 [Spawn version_cmd; Spawn (probe_cmd (input args)); Printed m])
    /\ (m = MsgNoDuration
        \/ exists d, m = MsgVideoDuration d
                     /\ z = true
                     /\ Py.float (Py.str_strip out) = Some d
                     /\ (d =? 0)%float = false)
    /\ (forall d, Py.float (Py.str_strip out) = Some d -> (d =? 0)%float = true ->
        m = MsgNoDuration).
Proof.
  intros Hli Hv Hp Hfin. rewrite main_cases, Hv, Hli, Hp.
  unfold duration_message, truthy_float.
  destruct z; [|exists MsgNoDuration; auto].
  destruct (Py.float (Py.str_strip out)) as [d|]; [|exists MsgNoDuration; auto].
  rewrite (Hfin d eq_refl).
  destruct (d =? 0)%float eqn:E; simpl.
  - exists MsgNoDuration. auto.
  - exists (MsgVideoDuration d). split; [reflexivity|]. split.
    + right. exists d. auto.
    + intros d' [= <-] E'. congruence.
Qed.

Lemma list_info_exits_zero_witness :
  main sample_str (with_probe_output zero_seconds) (Args "in.mp4" None None None None 10 true) sample_world
  = (Raise (SystemExit 0),
     World {["in.mp4"%string]}
       [Spawn version_cmd; Spawn (probe_cmd "in.mp4"); Printed MsgNoDuration]).
Proof.
  destruct (list_info_exits_zero sample_str (with_probe_output zero_seconds) (Args "in.mp4" None None None None 10 true)
              {["in.mp4"%string]} {["in.mp4"%string]} {["in.mp4"%string]}
              "" zero_seconds true eq_refl eq_refl eq_refl) as (m & Hrun & _ & Hzero).
  { intros d Hd. vm_compute in Hd. injection Hd as <-. reflexivity. }
  rewrite (Hzero 0%float) in Hrun; [exact Hrun | vm_compute; reflexivity | reflexivity].
Defined.

(** X9: when the availability check does not exit with status zero, the
    encoder missing or failing, [main] ends with exit status 1 after
    that one process and its two lines, whatever the arguments. *)
Theorem unavailable_encoder_exits_one
    (str_float : float -> string) (child : oracle) (args : Namespace)
    (fs : gset string) :
  (forall o, fst (child version_cmd fs) <> Exited true o) ->
  let run := main str_float child args (World fs []) in
  fst run = Raise (SystemExit 1)
  /\ events (snd run)
     = [Spawn version_cmd; Printed MsgFfmpegMissing; Printed MsgInstallHint].
Proof.
  cbv zeta. rewrite main_cases. intros Hbad.
  destruct (child version_cmd fs) as [[[] o|] fs1]; simpl in *; auto.
  now destruct (Hbad o).
Qed.

Lemma unavailable_encoder_exits_one_witness :
  fst (main sample_str nothing_installed
         (Args "in.mp4" None None None None 10 true) sample_world)
  = Raise (SystemExit 1).
Proof.
  apply (unavailable_encoder_exits_one sample_str nothing_installed
           (Args "in.mp4" None None None None 10 true) {["in.mp4"%string]}).
  intros o. discriminate.
Defined.

(** X10: a missing [ffprobe] is not caught: with [--list-info], after the
    availability check has passed, the run ends with an uncaught
    [FileNotFoundError] and has printed nothing. *)
Theorem missing_probe_escapes
    (str_float : float -> string) (child : oracle) (args : Namespace)
    (fs fs1 : gset string) (o : string) :
  list_info args = true ->
  child version_cmd fs = (Exited true o, fs1) ->
  fst (child (probe_cmd (input args)) fs1) = NotFound ->
  main str_float child args (World fs [])
  = (Raise FileNotFoundError,
     World fs1 [Spawn version_cmd; Spawn (probe_cmd (input args))]).
Proof.
  intros Hli Hv Hp. rewrite main_cases, Hv, Hli.
  destruct (child (probe_cmd (input args)) fs1) as [[z out|] fs2]; simpl in *;
    [discriminate|reflexivity].
Qed.

Lemma missing_probe_escapes_witness :
  fst (main sample_str without_ffprobe
         (Args "in.mp4" None None None None 10 true) sample_world)
  = Raise FileNotFoundError.
Proof.
  unfold sample_world.
  rewrite (missing_probe_escapes sample_str without_ffprobe
             (Args "in.mp4" None None None None 10 true)
             {["in.mp4"%string]} {["in.mp4"%string]} "" eq_refl eq_refl eq_refl).
  reflexivity.
Defined.

(** X11: [main] starts at most three processes and always in this order:
    the availability check, then either the duration probe (only with
    [--list-info]) or the palette pass possibly followed by the final
    pass (only without it). *)
Theorem main_process_sequence
    (str_float : float -> string) (child : oracle) (args : Namespace)
    (fs : gset string) :
  let sp := spawned (events (snd (main str_float child args (World fs [])))) in
  sp = [version_cmd]
  \/ (list_info args = true /\ sp = [version_cmd; probe_cmd (input args)])
  \/ (list_info args = false
      /\ exists cmd wd,
           let P := palette_cmd cmd (Some wd) (fps args) in
           let G := gif_cmd cmd (Some wd) (fps args)
                      (output_name (input args) (output args)) in
           sp = [version_cmd; P] \/ sp = [version_cmd; P; G]).
Proof.
  cbv zeta.
  destruct (main_trace str_float child args fs) as (rest & -> & Hcases).
  simpl.
  destruct Hcases as [->|[(Hli & _ & ->)|(Hli & _ & wd & so & eo & o & d & _ & _ & _ & H)]];
    [now left | right; left; auto |].
  right; right. split; [exact Hli|].
  exists (["ffmpeg"; "-i"; input args]%string ++ trim_arguments str_float o d), wd.
  cbv zeta in H. destruct H as [-> | ->]; auto.
Qed.

Section Splits.

Import Py.

Lemma split_on_nonempty sep l : split_on sep l <> [].
Proof.
  destruct l as [|c l]; simpl; [discriminate|].
  destruct (Ascii.eqb c sep); [discriminate|].
  destruct (split_on sep l); discriminate.
Qed.

Lemma split_on_parts sep l p : In p (split_on sep l) -> ~ In sep p.
Proof.
  revert p. induction l as [|c l IH]; simpl; intros p.
  - intros [<-|[]]. tauto.
  - destruct (Ascii.eqb_spec c sep) as [->|Hc].
    + intros [<-|Hin]; [tauto | now apply IH].
    + destruct (split_on sep l) as [|q qs] eqn:E.
      * intros [<-|[]]. simpl. tauto.
      * intros [<-|Hin].
        -- simpl. intros [E'|Hq]; [congruence|]. apply (IH q); [now left | exact Hq].
        -- apply IH. now right.
Qed.

Lemma split_nonempty sep s : split sep s <> [].
Proof.
  unfold split. intros E. apply map_eq_nil in E. now apply split_on_nonempty in E.
Qed.

End Splits.

(** X12: the error of the normalizer names the fault.  An accepted
    expression is well formed.  Four segments or more give the invalid
    format error on the whole expression, even when every segment is a
    number; with up to three segments the error is that of [float] on the
    first segment that is no number. *)
Theorem timestamp_error_names_the_fault (t : string) :
  match timestamp_to_seconds_str t with
  | Ok _ => well_formed t = true
  | Raise (ValueError (InvalidTimestampFormat t')) =>
      t' = t /\ (4 <= length (Py.split ":" t))%nat
  | Raise (ValueError (CouldNotConvert p)) =>
      (length (Py.split ":" t) <= 3)%nat
      /\ Py.float p = None
      /\ exists before after,
           Py.split ":" t = before ++ p :: after /\ forallb parses before = true
  | Raise _ => False
  end.
Proof.
  destruct (timestamp_to_seconds_str t) as [x|e] eqn:E.
  { eauto using accepted_well_formed. }
  revert E. unfold timestamp_to_seconds_str.
  destruct (Py.float t) as [y|] eqn:Ht; [discriminate|].
  pose proof (split_nonempty ":" t) as Hne.
  destruct (Py.split ":" t) as [|a [|b [|c [|d l]]]]; [congruence| | | |].
  - destruct (float_or_raise_cases a) as [(x & _ & -> & _)|[-> Ha]]; intros [= <-].
    split; [simpl; lia|]. split; [now apply parses_false|].
    now exists [], [].
  - destruct (float_or_raise_cases a) as [(x & _ & -> & Hpa)|[-> Ha]].
    + destruct (float_or_raise_cases b) as [(y & _ & -> & _)|[-> Hb]]; intros [= <-].
      split; [simpl; lia|]. split; [now apply parses_false|].
      exists [a], []. simpl. now rewrite Hpa.
    + intros [= <-]. split; [simpl; lia|]. split; [now apply parses_false|].
      now exists [], [b].
  - destruct (float_or_raise_cases a) as [(x & _ & -> & Hpa)|[-> Ha]].
    + destruct (float_or_raise_cases b) as [(y & _ & -> & Hpb)|[-> Hb]].
      * destruct (float_or_raise_cases c) as [(z & _ & -> & _)|[-> Hc]]; intros [= <-].
        split; [simpl; lia|]. split; [now apply parses_false|].
        exists [a; b], []. simpl. now rewrite Hpa, Hpb.
      * intros [= <-]. split; [simpl; lia|]. split; [now apply parses_false|].
        exists [a], [c]. simpl. now rewrite Hpa.
    + intros [= <-]. split; [simpl; lia|]. split; [now apply parses_false|].
      now exists [], [b; c].
  - intros [= <-]. split; [reflexivity | simpl; lia].
Qed.

(** X13: the default output name has no directory part: whatever the input
    path, the GIF is written in the working directory, under the stem of
    the input followed by [.gif]. *)
Theorem default_output_in_working_directory (input_file : string) :
  output_name input_file None = (Py.stem input_file +:+ ".gif")%string
  /\ ~ In "/"%char (list_ascii_of_string (output_name input_file None)).
Proof.
  split; [reflexivity|].
  unfold output_name. rewrite list_ascii_of_string_app.
  intros Hin. apply in_app_or in Hin as [Hin|Hin].
  2:{ simpl in Hin. intuition discriminate. }
  revert Hin. unfold Py.stem. rewrite list_ascii_of_string_of_list_ascii.
  assert (~ In "/"%char (Py.path_name input_file)) as Hname.
  { unfold Py.path_name.
    destruct (last _) as [p|] eqn:E; simpl; [|tauto].
    apply last_Some_elem_of in E.
    apply split_on_parts with (l := list_ascii_of_string input_file).
    apply list_elem_of_In.
    now apply list_elem_of_filter in E as [_ E]. }
  intros Hin. apply Hname.
  destruct (Py.rfind_dot _ _ _) as [i|]; [|exact Hin].
  destruct ((0 <? i)%nat && (i <? length (Py.path_name input_file) - 1)%nat);
    [|exact Hin].
  apply list_elem_of_In. apply list_elem_of_In in Hin.
  eapply subseteq_take, Hin.
Qed.

(** ** Differences in binary64 arithmetic *)

Lemma is_nan_spec x : is_nan x = true -> Prim2SF x = S754_nan.
Proof. unfold Prim2SF. now intros ->. Qed.

Lemma is_finite_spec x :
  is_finite x = true ->
  (exists s, Prim2SF x = S754_zero s) \/ exists s m e, Prim2SF x = S754_finite s m e.
Proof.
  unfold is_finite, Prim2SF. rewrite negb_true_iff, orb_false_iff. intros [-> ->].
  destruct (is_zero x); [eauto|].
  destruct (Z.frexp x) as [r ex].
  destruct (shr_fexp _ _ _ _ _) as [mrs e'].
  destruct (shr_m mrs); eauto 6.
Qed.

Lemma sub_self_zero x : is_finite x = true -> Prim2SF (x - x)%float = S754_zero false.
Proof.
  intros H. rewrite sub_spec. unfold SF64sub.
  apply is_finite_spec in H as [[s ->]|(s & m & e & ->)]; simpl.
  - now destruct s.
  - now rewrite Z.sub_diag.
Qed.

Lemma sub_self_nonpositive x : is_finite x = true -> (x - x <=? 0)%float = true.
Proof.
  intros H. rewrite leb_spec, (sub_self_zero x H). reflexivity.
Qed.

Lemma sub_nan x y :
  is_nan x = true \/ is_nan y = true -> (y - x)%float = nan.
Proof.
  intros H. apply Prim2SF_inj. rewrite sub_spec. unfold SF64sub.
  change (Prim2SF nan) with S754_nan.
  destruct H as [H|H]; rewrite (is_nan_spec _ H); [|reflexivity].
  now destruct (Prim2SF y).
Qed.

Lemma nan_not_nonpositive : (nan <=? 0)%float = false.
Proof. reflexivity. Qed.

(** X14: a start and an end that resolve to the same finite instant, as
    ["60"] and ["1:00"] do, make an empty window: the request is rejected
    with the time-range error and no process is started. *)
Theorem same_instant_rejected
    (str_float : float -> string) (child : oracle)
    (input_file : string) (output_file : option string) (width : option Z)
    (s e : string) (fps : Z) (w : world) (x : float) :
  timestamp_to_seconds_str s = Ok x ->
  timestamp_to_seconds_str e = Ok x ->
  is_finite x = true ->
  input_file ∈ files w ->
  video_to_gif str_float child input_file output_file width (Some s) (Some e) fps w
  = (Ok false, World (files w) (events w ++ [Printed MsgEndBeforeStart])).
Proof.
  intros Hs He Hfin Hin.
  pose proof (build_cmd_spec str_float input_file (Some s) (Some e) w) as Hb.
  simpl in Hb. rewrite Hs, He in Hb. simpl in Hb.
  rewrite (sub_self_nonpositive x Hfin) in Hb.
  rewrite video_to_gif_cases, bool_decide_true, Hb by assumption. reflexivity.
Qed.

Lemma same_instant_rejected_witness :
  video_to_gif sample_str working_encoder "in.mp4" None (Some 480)
    (Some "60"%string) (Some "1:00"%string) 10 sample_world
  = (Ok false, World {["in.mp4"%string]} [Printed MsgEndBeforeStart]).
Proof.
  apply (same_instant_rejected sample_str working_encoder "in.mp4" None (Some 480)
           "60" "1:00" 10 sample_world 60%float);
    vm_compute; reflexivity.
Defined.

(** X15: the time-range check lets a NaN through: when the start or the end
    resolves to NaN, as ["nan"] does, the duration is NaN, which is not
    [<= 0], so the request is not rejected and [-t nan] is handed to the
    encoder. *)
Theorem nan_passes_range_check
    (str_float : float -> string) (input_file s e : string) (w : world)
    (a b : float) :
  timestamp_to_seconds_str s = Ok a ->
  timestamp_to_seconds_str e = Ok b ->
  is_nan a = true \/ is_nan b = true ->
  build_cmd str_float input_file (Some s) (Some e) w
  = (Ok (Some ["ffmpeg"; "-i"; input_file; "-ss"; str_float a;
               "-t"; str_float nan]%string), w).
Proof.
  intros Hs He Hnan.
  pose proof (build_cmd_spec str_float input_file (Some s) (Some e) w) as Hb.
  simpl in Hb. rewrite Hs, He in Hb. simpl in Hb.
  rewrite (sub_nan a b Hnan), nan_not_nonpositive in Hb. exact Hb.
Qed.

Lemma nan_passes_range_check_witness :
  build_cmd sample_str "in.mp4" (Some "nan"%string) (Some "5"%string) sample_world
  = (Ok (Some ["ffmpeg"; "-i"; "in.mp4"; "-ss"; "nan"; "-t"; "nan"]%string),
     sample_world).
Proof.
  apply (nan_passes_range_check sample_str "in.mp4" "nan" "5" sample_world nan 5%float);
    try (vm_compute; reflexivity).
  left. reflexivity.
Defined.

Lemma truthy_false_Some t : truthy (Some t) = false -> t = ""%string.
Proof.
  simpl. rewrite negb_false_iff. apply String.eqb_eq.
Qed.

Lemma timestamp_option_Ok o x t :
  timestamp_to_seconds o = Ok x -> o = Some t ->
  exists y, timestamp_to_seconds_str t = Ok y.
Proof.
  intros H ->. simpl in H. destruct (timestamp_to_seconds_str t); [eauto|discriminate].
Qed.

Lemma timestamp_option_Raise o e :
  timestamp_to_seconds o = Raise e -> exists v, e = ValueError v.
Proof.
  destruct o as [t|]; simpl; [|discriminate].
  destruct (timestamp_to_seconds_str t) eqn:E; [discriminate|].
  intros [= <-]. eapply timestamp_raises_ValueError, E.
Qed.

(** When the validation of [main] lets the timestamps pass, each is
    empty or accepted by the normalizer. *)
Lemma validate_timestamps_passed start end_ w r w' :
  validate_timestamps start end_ w = (Ok r, w') ->
  forall t, start = Some t \/ end_ = Some t ->
  t = ""%string \/ exists x, timestamp_to_seconds_str t = Ok x.
Proof.
  unfold validate_timestamps. unfold_monad. intros H t Ht.
  destruct (truthy start) eqn:Ts; destruct (truthy end_) eqn:Te; simpl in H;
    repeat match type of H with
           | context [timestamp_to_seconds ?o] =>
               let E := fresh "E" in
               destruct (timestamp_to_seconds o) eqn:E; simpl in H;
               [|apply timestamp_option_Raise in E as [? ->]; discriminate]
           end;
    destruct Ht as [Ht|Ht]; subst;
    eauto using timestamp_option_Ok, truthy_false_Some.
Qed.

Section Escapes.

Context (str_float : float -> string).
Context (child : oracle).

Lemma build_cmd_raises input_file start end_ w e w' :
  build_cmd str_float input_file start end_ w = (Raise e, w') ->
  w' = w
  /\ exists t, (start = Some t \/ end_ = Some t) /\ timestamp_to_seconds_str t = Raise e.
Proof.
  unfold build_cmd. unfold_monad.
  destruct start as [s|], end_ as [u|]; simpl;
    repeat match goal with
           | |- context [timestamp_to_seconds_str ?t] =>
               let E := fresh "E" in
               destruct (timestamp_to_seconds_str t) eqn:E; simpl
           | |- context [(?x <=? ?y)%float] => destruct (x <=? y)%float; simpl
           end;
    intros [= <- <-] || intros [=]; eauto 6.
Qed.

(** A [ValueError] leaves [video_to_gif] only from the normalizer, on
    the start or the end, before anything is printed or started. *)
Lemma video_to_gif_raises_ValueError input_file output_file width start end_ fps w v :
  fst (video_to_gif str_float child input_file output_file width start end_ fps w)
  = Raise (ValueError v) ->
  video_to_gif str_float child input_file output_file width start end_ fps w
  = (Raise (ValueError v), w)
  /\ input_file ∈ files w
  /\ exists t, (start = Some t \/ end_ = Some t)
               /\ timestamp_to_seconds_str t = Raise (ValueError v).
Proof.
  rewrite video_to_gif_cases. case_bool_decide as Hin; [|discriminate].
  destruct (build_cmd str_float input_file start end_ w) as [[[cmd|]|e] w1] eqn:Hb;
    simpl.
  - destruct (run_passes_results child cmd width fps
                (output_name input_file output_file) w1) as (tr & _ & Hcases).
    intros E. rewrite E in Hcases.
    destruct Hcases as [(H & _)|[(H & _)|(H & _)]]; discriminate.
  - discriminate.
  - intros [= ->]. apply build_cmd_raises in Hb as (-> & t & Ht & E). eauto.
Qed.

End Escapes.

(** X16: the [ValueError] of a conversion ([float], [int] or the
    normalizer; the type [value_error]) escapes a run without
    [--list-info] only through an empty start or end.  The validation of
    [main] skips an empty timestamp, [video_to_gif] does not, so the
    error of [float] on the empty string leaves the run uncaught, after
    the availability check and before any encoder pass; no other input
    makes such a run end with the error of a conversion. *)
Theorem escaped_value_error_is_empty_timestamp
    (str_float : float -> string) (child : oracle) (args : Namespace)
    (fs : gset string) (v : value_error) :
  let run := main str_float child args (World fs []) in
  list_info args = false ->
  fst run = Raise (ValueError v) ->
  v = CouldNotConvert ""
  /\ (start args = Some ""%string \/ end_ args = Some ""%string)
  /\ spawned (events (snd run)) = [version_cmd]
  /\ reports_error (events (snd run)) = false.
Proof.
  cbv zeta. rewrite main_cases. intros ->.
  destruct (child version_cmd fs) as [[[] o|] fs1]; simpl; try discriminate.
  destruct (process_width_message (width args) (World fs1 [Spawn version_cmd]))
    as (r & m & -> & Hm). simpl.
  destruct r as [wd|e]; [|destruct Hm as [-> _]; discriminate].
  destruct (validate_timestamps_run (start args) (end_ args)
              (World fs1 [Spawn version_cmd; Printed m])) as [Hval|[u ->]];
    [|discriminate].
  rewrite Hval.
  pose proof (validate_timestamps_passed _ _ _ _ _ Hval) as Hpass.
  pose proof (video_to_gif_raises_ValueError str_float child (input args) (output args)
                (Some wd) (start args) (end_ args) (fps args)
                (World fs1 [Spawn version_cmd; Printed m]) v) as Hraise.
  destruct (video_to_gif _ _ _ _ _ _ _ _ _) as [[b|e] w4]; simpl; [discriminate|].
  intros [= ->].
  destruct (Hraise eq_refl) as ([= ->] & _ & t & Ht & E).
  destruct (Hpass t Ht) as [->|[x Hx]]; [|congruence].
  assert (v = CouldNotConvert "") as -> by (vm_compute in E; congruence).
  simpl. rewrite Hm. repeat split; try reflexivity.
  destruct Ht; auto.
Qed.

Lemma escaped_value_error_is_empty_timestamp_witness :
  spawned (events (snd (main sample_str working_encoder
                          (Args "in.mp4" None None (Some ""%string) None 10 false)
                          sample_world)))
  = [version_cmd].
Proof.
  apply (escaped_value_error_is_empty_timestamp sample_str working_encoder
           (Args "in.mp4" None None (Some ""%string) None 10 false)
           {["in.mp4"%string]} (CouldNotConvert ""));
    vm_compute; reflexivity.
Defined.

(** ** Decimal numerals *)

Section Numerals.

Import Py.









End Numerals.





(** X18: the program deletes nothing but the palette: with an encoder that
    removes no file, every file present before a run of [video_to_gif],
    other than [palette.png], is present after it, however the run
    ends. *)
Theorem only_the_palette_is_deleted
    (str_float : float -> string) (child : oracle)
    (input_file : string) (output_file : option string) (width : option Z)
    (start end_ : option string) (fps : Z) (w : world) :
  (forall cmd fs, fs ⊆ snd (child cmd fs)) ->
  files w ∖ {["palette.png"%string]}
  ⊆ files (snd (video_to_gif str_float child input_file output_file width
                  start end_ fps w)).
Proof.
  intros Hmono.
  destruct (video_to_gif_phases str_float child input_file output_file width
              start end_ fps w)
    as [[_ ->]|[_ [[v ->]|[->|(so & eo & o & d & _ & _ & _ & ->)]]]];
    [simpl; apply subseteq_difference_l; reflexivity ..|].
  pose proof (run_passes_cases child
                (["ffmpeg"; "-i"; input_file]%string ++ trim_arguments str_float o d)
                width fps (output_name input_file output_file) w) as H.
  cbv zeta in H. rewrite H. clear H.
  set (P := palette_cmd _ _ _). set (G := gif_cmd _ _ _ _).
  pose proof (Hmono P (files w)) as H1.
  destruct (child P (files w)) as [[[] o1|] fs1]; simpl in *.
  - pose proof (Hmono G fs1) as H2.
    destruct (child G fs1) as [[[] o2|] fs2]; simpl in *;
      [case_bool_decide; simpl| |];
      intros p Hp; apply elem_of_difference in Hp as [Hp Hne];
      try (apply elem_of_difference; split; [|exact Hne]); auto.
  - intros p Hp; apply elem_of_difference in Hp as [Hp Hne]; auto.
  - apply subseteq_difference_l; reflexivity.
Qed.

Lemma only_the_palette_is_deleted_witness :
  {["in.mp4"; "notes.txt"]}%string
  ⊆ files (snd (video_to_gif sample_str working_encoder "in.mp4" None (Some 480)
                  None None 10
                  (World {["in.mp4"; "notes.txt"; "palette.png"]}%string []))).
Proof.
  pose proof (only_the_palette_is_deleted sample_str working_encoder "in.mp4" None
                (Some 480) None None 10
                (World {["in.mp4"; "notes.txt"; "palette.png"]}%string [])) as H.
  intros p Hp. apply H.
  - intros cmd fs. unfold working_encoder.
    destruct (last cmd) as [out|]; [destruct (String.eqb out "-version")|]; simpl;
      [reflexivity | apply union_subseteq_l | reflexivity].
  - simpl. apply elem_of_difference. split.
    + apply elem_of_union in Hp as [Hp|Hp]; apply elem_of_union; left;
        apply elem_of_union; [left | right]; exact Hp.
    + intros Hpal. apply elem_of_singleton in Hpal as ->.
      apply elem_of_union in Hp as [Hp|Hp]; apply elem_of_singleton in Hp;
        discriminate Hp.
Defined.

(** X19: a width of zero is no width: [video_to_gif] tests the truth of
    the width, so [0] runs exactly as [None] does, scaling to the size of
    the source. *)
Theorem zero_width_means_no_width
    (str_float : float -> string) (child : oracle)
    (input_file : string) (output_file : option string)
    (start end_ : option string) (fps : Z) (w : world) :
  video_to_gif str_float child input_file output_file (Some 0) start end_ fps w
  = video_to_gif str_float child input_file output_file None start end_ fps w
  /\ palette_filters (Some 0) fps
     = ("scale=-1:-1:flags=lanczos,fps=" +:+ Py.str_int fps +:+ ",palettegen")%string.
Proof.
  split; [|reflexivity].
  rewrite !video_to_gif_cases. case_bool_decide; [|reflexivity].
  destruct (build_cmd _ _ _ _ _) as [[[cmd|]|e] w1]; reflexivity.
Qed.

(** X20: exit status 0 of a conversion means the GIF is there: when
    [main], run without [--list-info], ends with exit status 0, the
    output file exists, the palette is gone, no error was printed and
    exactly three processes ran, the availability check and the two
    passes. *)
Theorem exit_zero_means_gif_exists
    (str_float : float -> string) (child : oracle) (args : Namespace)
    (fs : gset string) :
  let run := main str_float child args (World fs []) in
  list_info args = false ->
  fst run = Raise (SystemExit 0) ->
  output_name (input args) (output args) ∈ files (snd run)
  /\ palette_removed (snd run)
  /\ length (spawned (events (snd run))) = 3%nat
  /\ last (events (snd run))
     = Some (Printed (MsgCreated (output_name (input args) (output args)))).
Proof.
  cbv zeta. rewrite main_cases. intros ->.
  destruct (child version_cmd fs) as [[[] o0|] fs1]; simpl; try discriminate.
  destruct (process_width_message (width args) (World fs1 [Spawn version_cmd]))
    as (r & m & -> & Hm). simpl.
  destruct r as [wd|e]; [|destruct Hm as [-> _]; discriminate].
  destruct (validate_timestamps_run (start args) (end_ args)
              (World fs1 [Spawn version_cmd; Printed m])) as [->|[u ->]];
    [|discriminate].
  destruct (video_to_gif_phases str_float child (input args) (output args) (Some wd)
              (start args) (end_ args) (fps args)
              (World fs1 [Spawn version_cmd; Printed m]))
    as [[_ ->]|[_ [[v ->]|[->|(so & eo & o & d & _ & _ & _ & ->)]]]];
    try discriminate.
  destruct (run_passes_results child
              (["ffmpeg"; "-i"; input args]%string ++ trim_arguments str_float o d)
              (Some wd) (fps args) (output_name (input args) (output args))
              (World fs1 [Spawn version_cmd; Printed m]))
    as (tr & Htr & Hcases).
  destruct (run_passes _ _ _ _ _ _) as [r w4]. simpl in Htr, Hcases.
  destruct Hcases as [(-> & Hsp & _ & Hlast & Hout & Hpal)|[(-> & _)|(-> & _)]];
    try discriminate.
  intros _. simpl. rewrite Htr.
  change (Spawn version_cmd :: Printed m :: tr)
    with ([Spawn version_cmd; Printed m] ++ tr).
  rewrite spawned_app, length_app, Hsp, last_app, Hlast. auto.
Qed.

Lemma exit_zero_means_gif_exists_witness :
  "clip.gif"%string
  ∈ files (snd (main sample_str working_encoder
                  (Args "in.mp4" (Some "clip.gif"%string) (Some "small"%string)
                     (Some "0:30"%string) (Some "1:15"%string) 15 false)
                  sample_world)).
Proof.
  apply (exit_zero_means_gif_exists sample_str working_encoder
           (Args "in.mp4" (Some "clip.gif"%string) (Some "small"%string)
              (Some "0:30"%string) (Some "1:15"%string) 15 false)
           {["in.mp4"%string]}); vm_compute; reflexivity.
Defined.
